(** * The Bayesian t-test of [bayesian_statistics.ipynb]

    A shallow embedding of the notebook's only function, [bayes_ttest],
    and of the values it handles, followed by the two cells that compute
    with the data they plot: the colouring of a histogram around 0 and the
    curve of the exponential prior.

    Conventions of the embedding.
    - numpy's float64 numbers are read as real numbers in the module
      [Numpy] and the definitions built on it.  A theorem is stated over
      this reading where it holds of the float64 computation as well: it
      transcribes the formulas of the code, or rests on order and sign
      only.  The module [Binary64] reads the same lines in binary64
      arithmetic; where rounding or underflow makes a statement of the
      spec fail, the failing run is computed there.
    - The collaborators that the notebook calls but does not define, the
      data generator [gen_data], the MCMC engine of [pymc] and the
      density estimator [stats.gaussian_kde] of scipy, are parameters of
      the development.  The first two draw random numbers; a parameter
      stands for the answers they give during one run.
    - The construction of the nodes by [pymc] and the drawing calls of
      matplotlib are taken to succeed.
    - [N] is a Python int.  The division by [N] in the precision of the
      priors converts it to a float, which Python refuses with an
      [OverflowError] for an int beyond the range of a float; the
      theorems about a whole run take an [N] that converts
      ([converts_to_float]).
    - Printing, sampling and plotting are recorded as a list of events
      next to the value the function returns. *)

From Stdlib Require PrimFloat.
From Stdlib Require Import Reals Lra Lia List String ZArith Bool Permutation Sorted.
Import ListNotations.

Open Scope string_scope.
Open Scope list_scope.
Open Scope R_scope.

(** ** numpy on one-dimensional arrays *)

Module Numpy.

(** A one-dimensional float array. *)
Definition ndarray : Type := list R.

(** [np.concatenate((a, b))]. *)
Definition concatenate (a b : ndarray) : ndarray := a ++ b.

Definition sum (a : ndarray) : R := fold_right Rplus 0 a.

(** [a.mean()]: the sum over the number of entries. *)
Definition mean (a : ndarray) : R := sum a / INR (List.length a).

(** [a.var()] with the default [ddof=0]: the mean of the squared
    deviations from the mean. *)
Definition var (a : ndarray) : R :=
  let m := mean a in
  mean (map (fun x => (x - m) * (x - m)) a).

(** Elementwise binary operation on two arrays of the same shape.  The
    traces of one sampling run have a common length, so the broadcasting
    rules and the shape error of numpy never come into play. *)
Fixpoint elementwise (f : R -> R -> R) (a b : ndarray) : ndarray :=
  match a, b with
  | x :: a', y :: b' => f x y :: elementwise f a' b'
  | _, _ => []
  end.

Definition sub : ndarray -> ndarray -> ndarray := elementwise Rminus.
Definition add : ndarray -> ndarray -> ndarray := elementwise Rplus.
Definition div : ndarray -> ndarray -> ndarray := elementwise Rdiv.

(** [a ** n] for an integer exponent. *)
Definition power (a : ndarray) (n : nat) : ndarray := map (fun x => x ^ n) a.

(** [a / c] for a scalar [c]. *)
Definition div_scalar (a : ndarray) (c : R) : ndarray := map (fun x => x / c) a.

(** [np.sqrt(a)] and [np.log(a)]. *)
Definition sqrt (a : ndarray) : ndarray := map R_sqrt.sqrt a.
Definition log (a : ndarray) : ndarray := map ln a.

End Numpy.

(** ** Python values and builtins *)

(** What a call can hand back to its caller. *)
#[warnings="-register-all"]
Inductive pyval : Type :=
| PyNone
| PyFloat (x : R)
| PyArray (a : Numpy.ndarray)
| PyTuple (vs : list pyval).

(** The numbers a value holds. *)
Fixpoint floats_of (v : pyval) : list R :=
  match v with
  | PyNone => []
  | PyFloat x => [x]
  | PyArray a => a
  | PyTuple vs => flat_map floats_of vs
  end.

(** The arrays a value holds. *)
Fixpoint arrays_of (v : pyval) : list Numpy.ndarray :=
  match v with
  | PyNone => []
  | PyFloat _ => []
  | PyArray a => [a]
  | PyTuple vs => flat_map arrays_of vs
  end.

Inductive exception : Type :=
| ValueError (msg : string)
| LinAlgError (msg : string)
| SamplingError (reason : string).

(** The builtins [min] and [max] on a sequence; on an empty one Python
    raises [ValueError]. *)
Definition py_min (a : list R) : exception + R :=
  match a with
  | [] => inl (ValueError "min() arg is an empty sequence")
  | x :: a' => inr (fold_left Rmin a' x)
  end.

Definition py_max (a : list R) : exception + R :=
  match a with
  | [] => inl (ValueError "max() arg is an empty sequence")
  | x :: a' => inr (fold_left Rmax a' x)
  end.

(** ** The pymc model *)

(** One numeric sample: the observations of a group. *)
Definition Sample : Type := Numpy.ndarray.

(** The nodes [bayes_ttest] creates.  Every node carries the label it is
    registered under.  The precision of a [NoncentralT] node is the
    quotient [lam_num / lam_den] of a constant and another node. *)
Inductive node : Type :=
| Normal (name : string) (mu tau : R)
| Uniform (name : string) (lower upper : R)
| Exponential (name : string) (beta : R)
| NoncentralT (name : string) (mu : node) (lam_num : R) (lam_den : node)
              (nu : node) (value : Sample) (observed : bool).

Definition node_name (n : node) : string :=
  match n with
  | Normal s _ _ | Uniform s _ _ | Exponential s _
  | NoncentralT s _ _ _ _ _ _ => s
  end.

(** pymc's [observed] flag; it is [False] unless given. *)
Definition observed (n : node) : bool :=
  match n with
  | NoncentralT _ _ _ _ _ _ o => o
  | _ => false
  end.

(** The data an observed node is conditioned on. *)
Definition node_value (n : node) : option Sample :=
  match n with
  | NoncentralT _ _ _ _ _ v _ => Some v
  | _ => None
  end.

Definition Model : Type := list node.

(** The latent parameters are the nodes without data; the likelihood
    nodes are the observed ones. *)
Definition latent (m : Model) : list node := filter (fun n => negb (observed n)) m.
Definition likelihoods (m : Model) : list node := filter observed m.

(** The priors and likelihoods of [bayes_ttest], lines "Pooled data" to
    "Push priors", for the resolved groups and the parameter [N]. *)
Definition pooled (group1 group2 : Sample) : Numpy.ndarray :=
  Numpy.concatenate group1 group2.

(** [pm.Normal(name, mu=pooled.mean(), tau=1.0/pooled.var()/N)]; [IZR N]
    is the float that the division makes of the int [N], which exists for
    an [N] within the range of a float (see [converts_to_float] below). *)
Definition prior_mu (name : string) (group1 group2 : Sample) (N : Z) : node :=
  let p := pooled group1 group2 in
  Normal name (Numpy.mean p) (1 / Numpy.var p / IZR N).

Definition prior_sigma (name : string) (group1 group2 : Sample) : node :=
  let p := pooled group1 group2 in
  Uniform name (Numpy.var p / 1000) (Numpy.var p * 1000).

Definition prior_nu : node := Exponential "nu" (1 / 29).

Definition build_model (group1 group2 : Sample) (N : Z) : Model :=
  let mu1 := prior_mu "mu_1" group1 group2 N in
  let mu2 := prior_mu "mu_2" group1 group2 N in
  let sig1 := prior_sigma "sigma_1" group1 group2 in
  let sig2 := prior_sigma "sigma_2" group1 group2 in
  let v := prior_nu in
  let t1 := NoncentralT "t_1" mu1 1 sig1 v group1 true in
  let t2 := NoncentralT "t_1" mu2 1 sig2 v group2 true in
  [t1; mu1; sig1; t2; mu2; sig2; v].

(** ** Traces *)

(** One retained iteration of the sampler: a value of each of the five
    latent parameters, under the label the model gives it.  The engine
    tallies all of them at every retained iteration, so the traces of a
    run are the columns of one table. *)
Record draw : Type := Draw {
  mu_1 : R;
  mu_2 : R;
  sigma_1 : R;
  sigma_2 : R;
  nu : R
}.

(** [mcmc.trace(label)[:]]: the column of one parameter. *)
Definition trace (field : draw -> R) (db : list draw) : Numpy.ndarray := map field db.

(** The derived quantities, lines "Difference in mus" to [effect_size]. *)
Definition diff_mus (mus1 mus2 : Numpy.ndarray) : Numpy.ndarray :=
  Numpy.sub mus1 mus2.

Definition diff_sigmas (sigmas1 sigmas2 : Numpy.ndarray) : Numpy.ndarray :=
  Numpy.sub sigmas1 sigmas2.

Definition normality (nus : Numpy.ndarray) : Numpy.ndarray := Numpy.log nus.

(** The divisor of the effect size, [np.sqrt((sigmas1**2+sigmas2**2)/2.)]. *)
Definition effect_divisor (sigmas1 sigmas2 : Numpy.ndarray) : Numpy.ndarray :=
  Numpy.sqrt (Numpy.div_scalar (Numpy.add (Numpy.power sigmas1 2) (Numpy.power sigmas2 2)) 2).

Definition effect_size (mus1 mus2 sigmas1 sigmas2 : Numpy.ndarray) : Numpy.ndarray :=
  Numpy.div (Numpy.sub mus1 mus2) (effect_divisor sigmas1 sigmas2).

(** ** The same lines in binary64 arithmetic

    numpy's float64 is IEEE 754 binary64, the arithmetic of Rocq's
    primitive floats: every operation below rounds to the nearest float,
    ties to even. *)

Module Binary64.

Import PrimFloat.

Definition ndarray : Type := list float.

(** [np.concatenate((a, b))]. *)
Definition concatenate (a b : ndarray) : ndarray := a ++ b.

(** The sum of the entries, added one by one from left to right: the
    order in which numpy adds an array of fewer than eight entries. *)
Definition sum (a : ndarray) : float := fold_left add a 0%float.

(** The number of entries as a float, exact below [2^53]. *)
Fixpoint of_nat (n : nat) : float :=
  match n with
  | O => 0%float
  | S k => (of_nat k + 1)%float
  end.

(** [a.mean()]. *)
Definition mean (a : ndarray) : float := (sum a / of_nat (List.length a))%float.

Fixpoint elementwise (f : float -> float -> float) (a b : ndarray) : ndarray :=
  match a, b with
  | x :: a', y :: b' => f x y :: elementwise f a' b'
  | _, _ => []
  end.

Definition sub : ndarray -> ndarray -> ndarray := elementwise PrimFloat.sub.
Definition add : ndarray -> ndarray -> ndarray := elementwise PrimFloat.add.
Definition div : ndarray -> ndarray -> ndarray := elementwise PrimFloat.div.

(** [x ** n] for an integer exponent: repeated multiplication; for
    [n = 2] the product [x * x]. *)
Fixpoint pow (x : float) (n : nat) : float :=
  match n with
  | O => 1%float
  | S k => (x * pow x k)%float
  end.

Definition power (a : ndarray) (n : nat) : ndarray := map (fun x => pow x n) a.
Definition div_scalar (a : ndarray) (c : float) : ndarray := map (fun x => (x / c)%float) a.
Definition sqrt (a : ndarray) : ndarray := map PrimFloat.sqrt a.

(** [pooled = np.concatenate((group1, group2))] and the centre
    [pooled.mean()] of the priors of both group means. *)
Definition pooled (group1 group2 : ndarray) : ndarray := concatenate group1 group2.

(** [diff_mus] and [effect_size] with its divisor. *)
Definition diff_mus (mus1 mus2 : ndarray) : ndarray := sub mus1 mus2.

Definition effect_divisor (sigmas1 sigmas2 : ndarray) : ndarray :=
  sqrt (div_scalar (add (power sigmas1 2) (power sigmas2 2)) 2%float).

Definition effect_size (mus1 mus2 sigmas1 sigmas2 : ndarray) : ndarray :=
  div (sub mus1 mus2) (effect_divisor sigmas1 sigmas2).




End Binary64.

(** ** Effects *)

(** What [print] is given.  The format strings of the source are
    ['T-test requires only 2 groups, not %i'] and
    ['\n   Group 1 mu: %.4f\n   Group 2 mu: %.4f\n   Effect size: %.4f'];
    a message keeps the arguments of the format. *)
Inductive message : Type :=
| GroupCountMsg (count : nat)
| SummaryMsg (group1_mu group2_mu effect : R).

(** The calls that reach outside the function. *)
Inductive event : Type :=
| Print (m : message)
| McmcSample (model : Model) (iter burn thin : Z)
| PlotDensities (title : string) (minx maxx : R) (curves : list Numpy.ndarray)
| PlotShow.

(** A computation: the events so far, and an exception or a value. *)
Definition run (A : Type) : Type := (list event * (exception + A))%type.

Definition ret {A : Type} (a : A) : run A := ([], inr a).

Definition raise {A : Type} (e : exception) : run A := ([], inl e).

Definition emit (e : event) : run unit := ([e], inr tt).

Definition lift {A : Type} (r : exception + A) : run A := ([], r).

Definition bind {A B : Type} (m : run A) (k : A -> run B) : run B :=
  match m with
  | (es, inl e) => (es, inl e)
  | (es, inr a) => let (es', r) := k a in (es ++ es', r)
  end.

Notation "x <- m ;; k" := (bind m (fun x => k))
  (at level 61, m at next level, right associativity).
Notation "m ;;; k" := (bind m (fun _ => k))
  (at level 61, right associativity).

Definition events {A : Type} (r : run A) : list event := fst r.
Definition outcome {A : Type} (r : run A) : exception + A := snd r.

(** The configurations the engine is called with during a run. *)
Definition sampler_calls (es : list event) : list (Z * Z * Z) :=
  flat_map (fun e => match e with
                     | McmcSample _ iter burn thin => [(iter, burn, thin)]
                     | _ => []
                     end) es.

Definition sampled_models (es : list event) : list Model :=
  flat_map (fun e => match e with
                     | McmcSample m _ _ _ => [m]
                     | _ => []
                     end) es.

Definition printed (es : list event) : list message :=
  flat_map (fun e => match e with Print m => [m] | _ => [] end) es.

Definition plotted (es : list event) : list Numpy.ndarray :=
  flat_map (fun e => match e with PlotDensities _ _ _ cs => cs | _ => [] end) es.


(** ** The comparator *)

(** The result of the engine: a failure, or the table of retained draws. *)
Definition sampling : Type := (exception + list draw)%type.

(** Default of the parameter [N]. *)
Definition N_default : Z := 40.

(** The quotient [1.0/pooled.var()/N] converts the int [N] to a float.
    Every int below [2^1023] in absolute value has one; for an int
    beyond the largest float Python raises [OverflowError] there, before
    any node is made. *)
Definition converts_to_float (N : Z) : Prop := (Z.abs N < 2 ^ 1023)%Z.

(** What [stats.gaussian_kde(trace)] gives: an estimator, of which the
    function only draws the curve, or the exception it raises. *)
Definition estimate : Type := (exception + unit)%type.

Section Comparator.

(** [gen_data(N=n)], called as [group1, group2 = gen_data(N=40)]; the
    notebook does not define it. *)
Variable gen_data : Z -> Sample * Sample.

(** [pm.MCMC(model)] followed by [mcmc.sample(iter, burn, thin)]. *)
Variable mcmc : Model -> Z -> Z -> Z -> sampling.

(** [stats.gaussian_kde(trace)]. *)
Variable gaussian_kde : Numpy.ndarray -> estimate.

Definition mcmc_sample (m : Model) (iter burn thin : Z) : run (list draw) :=
  emit (McmcSample m iter burn thin) ;;; lift (mcmc m iter burn thin).

(** The branch [if show:]. *)
Definition show_plots (mus1 mus2 diff : Numpy.ndarray) : run unit :=
  min1 <- lift (py_min mus1) ;;
  min2 <- lift (py_min mus2) ;;
  max1 <- lift (py_max mus1) ;;
  max2 <- lift (py_max mus2) ;;
  lift (gaussian_kde mus1) ;;;
  lift (gaussian_kde mus2) ;;;
  emit (PlotDensities "$\mu_1$ vs $\mu_2$" (Rmin min1 min2) (Rmax max1 max2) [mus1; mus2]) ;;;
  minx <- lift (py_min diff) ;;
  maxx <- lift (py_max diff) ;;
  lift (gaussian_kde diff) ;;;
  emit (PlotDensities "$\mu_1-\mu_2$" minx maxx [diff]) ;;;
  emit PlotShow.

(** The function from the line [pooled = ...] on, for resolved groups. *)
Definition compare_groups (group1 group2 : Sample) (N : Z) (show : bool) : run pyval :=
  let model := build_model group1 group2 N in
  db <- mcmc_sample model 40000 10000 2 ;;
  let mus1 := trace mu_1 db in
  let mus2 := trace mu_2 db in
  let sigmas1 := trace sigma_1 db in
  let sigmas2 := trace sigma_2 db in
  let nus := trace nu db in
  let diff := diff_mus mus1 mus2 in
  let _ := diff_sigmas sigmas1 sigmas2 in
  let _ := normality nus in
  let effect := effect_size mus1 mus2 sigmas1 sigmas2 in
  emit (Print (SummaryMsg (Numpy.mean mus1) (Numpy.mean mus2) (Numpy.mean effect))) ;;;
  (if show then show_plots mus1 mus2 diff else ret tt) ;;;
  ret PyNone.

(** [def bayes_ttest(groups=None, N=40, show=False)]. *)
Definition bayes_ttest (groups : option (list Sample)) (N : Z) (show : bool) : run pyval :=
  match groups with
  | None =>
      let '(group1, group2) := gen_data 40 in
      compare_groups group1 group2 N show
  | Some gs =>
      if negb (List.length gs =? 2)%nat then
        emit (Print (GroupCountMsg (List.length gs))) ;;;
        ret PyNone
      else
        match gs with
        | [group1; group2] => compare_groups group1 group2 N show
        | _ => raise (ValueError "wrong number of values to unpack") (* not reached *)
        end
  end.

(** A call that leaves out [N] or [show]. *)
Definition bayes_ttest_call (groups : option (list Sample)) (N : option Z)
    (show : option bool) : run pyval :=
  bayes_ttest groups (match N with Some n => n | None => N_default end)
              (match show with Some b => b | None => false end).

End Comparator.

Arguments build_model : simpl never.
Arguments mcmc_sample mcmc m iter burn thin : rename.
Arguments compare_groups mcmc gaussian_kde group1 group2 N show : rename.

(** ** Concrete collaborators and data

    Used to run the function on explicit inputs. *)

(** Modelled from the spec: [gen_data], which the notebook calls but does
    not define; the spec asks of it only to "generate two numeric samples
    of a given size".  This one answers with [n] zeros and [n] twos. *)
Definition gen_constant (n : Z) : Sample * Sample :=
  (repeat 0 (Z.to_nat n), repeat 2 (Z.to_nat n)).

(** An engine that answers every request with the same table. *)
Definition engine_const (db : list draw) : Model -> Z -> Z -> Z -> sampling :=
  fun _ _ _ _ => inr db.

(** An engine that always fails. *)
Definition engine_failing : Model -> Z -> Z -> Z -> sampling :=
  fun _ _ _ _ => inl (SamplingError "no convergence").

(** scipy's estimator as far as its failures go: it needs more than one
    observation, and observations that are not all equal, for otherwise
    the covariance it inverts is singular. *)
Definition gaussian_kde_model (a : Numpy.ndarray) : estimate :=
  match a with
  | [] | [_] => inl (ValueError "dataset input should have multiple elements")
  | x :: rest =>
      if Forall_dec (fun y => y = x) (fun y => Req_dec_T y x) rest
      then inl (LinAlgError "singular matrix")
      else inr tt
  end.

Definition group_A : Sample := [0; 2].
Definition group_B : Sample := [4; 6].
Definition group_C : Sample := [1; 1; 1].

Definition two_draws : list draw := [Draw 1 5 1 1 30; Draw 3 5 1 1 30].

(** A table whose mean traces, and their difference, vary. *)
Definition varied_draws : list draw := [Draw 1 5 1 1 30; Draw 3 6 1 1 30].

(** The three estimators that the branch [if show:] asks for are made. *)
Definition densities_estimated (gaussian_kde : Numpy.ndarray -> estimate)
    (db : list draw) : Prop :=
  gaussian_kde (trace mu_1 db) = inr tt
  /\ gaussian_kde (trace mu_2 db) = inr tt
  /\ gaussian_kde (diff_mus (trace mu_1 db) (trace mu_2 db)) = inr tt.

(** A call ends in an exception. *)
Definition fails {A : Type} (r : run A) : Prop := exists e, outcome r = inl e.

(** A call hands back a value that holds the three estimates and, when
    [show] is set, the traces of the means and of their difference. *)
Definition returns_result (r : run pyval) (show : bool)
    (m1 m2 es : R) (mus1 mus2 diff : Numpy.ndarray) : Prop :=
  exists v, outcome r = inr v /\
    In m1 (floats_of v) /\ In m2 (floats_of v) /\ In es (floats_of v) /\
    (show = true ->
       In mus1 (arrays_of v) /\ In mus2 (arrays_of v) /\ In diff (arrays_of v)).

(** Swapping the labels of the two groups in a table of draws. *)
Definition swap_draw (d : draw) : draw :=
  Draw (mu_2 d) (mu_1 d) (sigma_2 d) (sigma_1 d) (nu d).

(** The precision of a normal prior. *)
Definition precision (n : node) : option R :=
  match n with
  | Normal _ _ tau => Some tau
  | _ => None
  end.


(** ** The cell "Simple p-substitute values"

    The body of the loop [for s in range(3)], from the line that computes
    the bin centres on.  The three values that [ax.hist] hands back, the
    counts, the bin edges and the patches, are its inputs. *)

(** What the body can raise: an exception of a builtin, or the
    [IndexError] of an array indexed outside its bounds. *)
Inductive cell_error : Type :=
| Builtin (e : exception)
| IndexError (index size : nat).

(** [0.5 * (bins[:-1] + bins[1:])]: the slices without the last and
    without the first entry have one length. *)
Definition bincents (bins : Numpy.ndarray) : Numpy.ndarray :=
  map (fun s => 0.5 * s) (Numpy.add (removelast bins) (tl bins)).

(** [list(a).index(b)]: the first position that holds [b]; Python raises
    [ValueError] when there is none. *)
Fixpoint list_index (b : R) (a : list R) : option nat :=
  match a with
  | [] => None
  | x :: a' => if Req_dec_T x b then Some 0%nat else option_map S (list_index b a')
  end.

(** The builtin [sum]: from 0, left to right. *)
Definition py_sum (a : list R) : R := fold_left Rplus a 0.

(** [for b in bincents: ...], on the centres still to visit, with the
    colours and the count gathered so far. *)
Fixpoint colour_bins (cnts centres todo : Numpy.ndarray) (cols : list string)
    (cnts_sofar : R) : cell_error + (list string * R) :=
  match todo with
  | [] => inr (cols, cnts_sofar)
  | b :: rest =>
      if Rlt_dec b 0 then
        colour_bins cnts centres rest (cols ++ ["red"]) cnts_sofar
      else
        match list_index b centres with
        | None => inl (Builtin (ValueError "value is not in list"))
        | Some i =>
            match nth_error cnts i with
            | None => inl (IndexError i (List.length cnts))
            | Some c => colour_bins cnts centres rest (cols ++ ["blue"]) (cnts_sofar + c)
            end
        end
  end.

(** What one pass of the loop leaves on its subplot. *)
Record subplot : Type := Subplot {
  (** [plt.setp(p, 'facecolor', c)] for every [c, p] of [zip(cols, patches)] *)
  facecolors : list (string * nat);
  (** the upper end of the dashed line at 0, [max(cnts)] *)
  benchmark_top : R;
  (** the number in the title, [cnts_sofar/sum(cnts)] *)
  title_value : R
}.

Definition p_substitute (cnts bins : Numpy.ndarray) (patches : list nat)
  : cell_error + subplot :=
  let centres := bincents bins in
  match colour_bins cnts centres centres [] 0 with
  | inl e => inl e
  | inr (cols, cnts_sofar) =>
      match py_max cnts with
      | inl e => inl (Builtin e)
      | inr top => inr (Subplot (combine cols patches) top (cnts_sofar / py_sum cnts))
      end
  end.

(** The colour of a bin with centre [b]. *)
Definition colour_of (b : R) : string := if Rlt_dec b 0 then "red" else "blue".

(** The counts of the bins whose centre is not below 0. *)
Fixpoint counts_above (centres cnts : Numpy.ndarray) : list R :=
  match centres, cnts with
  | b :: centres', c :: cnts' =>
      if Rlt_dec b 0 then counts_above centres' cnts' else c :: counts_above centres' cnts'
  | _, _ => []
  end.

(** ** The cell of the exponential prior

    [E = [np.exp(-(i/5.))/5. for i in x]]. *)
Definition exponential_curve (x : Numpy.ndarray) : list R :=
  map (fun i => exp (- (i / 5)) / 5) x.

(** * Properties *)

(** ** The engine is called once, with the model of the two groups *)

Section Runs.

Variable gen_data : Z -> Sample * Sample.
Variable mcmc : Model -> Z -> Z -> Z -> sampling.
Variable gaussian_kde : Numpy.ndarray -> estimate.

(** The branch [if show:] never calls the engine. *)
Lemma show_plots_no_sampling :
  forall mus1 mus2 diff,
    sampler_calls (events (show_plots gaussian_kde mus1 mus2 diff)) = []
    /\ sampled_models (events (show_plots gaussian_kde mus1 mus2 diff)) = [].
Proof.
  intros mus1 mus2 diff. unfold show_plots, bind, lift, emit.
  repeat match goal with
         | |- context [match ?x with inl _ => _ | inr _ => _ end] => destruct x
         end; cbn; split; reflexivity.
Qed.

Lemma events_compare_groups_head :
  forall g1 g2 N show,
    exists rest,
      events (compare_groups mcmc gaussian_kde g1 g2 N show)
      = McmcSample (build_model g1 g2 N) 40000 10000 2 :: rest
      /\ sampler_calls rest = [] /\ sampled_models rest = [].
Proof.
  intros g1 g2 N show. unfold compare_groups, mcmc_sample.
  destruct (mcmc (build_model g1 g2 N) 40000 10000 2) as [e | db].
  - exists []. cbn. auto.
  - destruct show.
    + cbn [bind emit lift ret fst snd app events].
      destruct (show_plots_no_sampling (trace mu_1 db) (trace mu_2 db)
                  (diff_mus (trace mu_1 db) (trace mu_2 db))) as (H1 & H2).
      destruct (show_plots gaussian_kde (trace mu_1 db) (trace mu_2 db)
                  (diff_mus (trace mu_1 db) (trace mu_2 db))) as [es [e | []]];
        cbn [bind emit lift ret fst snd app events] in *;
        eexists; (split; [reflexivity |]).
      * split; assumption.
      * rewrite app_nil_r. split; assumption.
    + cbn. eexists; split; [reflexivity | split; reflexivity].
Qed.

Lemma sampler_calls_compare_groups :
  forall g1 g2 N show,
    sampler_calls (events (compare_groups mcmc gaussian_kde g1 g2 N show))
    = [(40000, 10000, 2)%Z].
Proof.
  intros. destruct (events_compare_groups_head g1 g2 N show) as (rest & -> & H & _).
  unfold sampler_calls in *. cbn [flat_map app]. now rewrite H.
Qed.

Lemma sampled_models_compare_groups :
  forall g1 g2 N show,
    sampled_models (events (compare_groups mcmc gaussian_kde g1 g2 N show))
    = [build_model g1 g2 N].
Proof.
  intros. destruct (events_compare_groups_head g1 g2 N show) as (rest & -> & _ & H).
  unfold sampled_models in *. cbn [flat_map app]. now rewrite H.
Qed.

(** What a run over resolved groups does when the engine answers with
    the table [db] and, with [show] set, the table has a draw and the
    densities are estimated. *)
Lemma compare_groups_success :
  forall g1 g2 N show db,
    mcmc (build_model g1 g2 N) 40000 10000 2 = inr db ->
    (show = true -> db <> [] /\ densities_estimated gaussian_kde db) ->
    let mus1 := trace mu_1 db in
    let mus2 := trace mu_2 db in
    let effect := effect_size mus1 mus2 (trace sigma_1 db) (trace sigma_2 db) in
    let r := compare_groups mcmc gaussian_kde g1 g2 N show in
    outcome r = inr PyNone
    /\ printed (events r)
       = [SummaryMsg (Numpy.mean mus1) (Numpy.mean mus2) (Numpy.mean effect)]
    /\ plotted (events r)
       = (if show then [mus1; mus2; diff_mus mus1 mus2] else []).
Proof.
  intros g1 g2 N show db E Hs. cbv zeta.
  unfold compare_groups, mcmc_sample. rewrite E.
  destruct show.
  - destruct (Hs eq_refl) as (Hne & K1 & K2 & K3).
    destruct db as [| d db']; [now exfalso; apply Hne |].
    cbn [bind emit lift ret fst snd app events].
    unfold show_plots. rewrite K1, K2, K3.
    cbn. repeat split; reflexivity.
  - cbn. repeat split; reflexivity.
Qed.

(** A failure of the engine is the failure of the run, and nothing is
    printed or plotted. *)
Lemma compare_groups_engine_failure :
  forall g1 g2 N show e,
    mcmc (build_model g1 g2 N) 40000 10000 2 = inl e ->
    compare_groups mcmc gaussian_kde g1 g2 N show
    = ([McmcSample (build_model g1 g2 N) 40000 10000 2], inl e).
Proof.
  intros g1 g2 N show e E. unfold compare_groups, mcmc_sample. now rewrite E.
Qed.

(** The three ways [bayes_ttest] resolves its groups. *)
Lemma bayes_ttest_two_groups :
  forall g1 g2 N show,
    bayes_ttest gen_data mcmc gaussian_kde (Some [g1; g2]) N show
    = compare_groups mcmc gaussian_kde g1 g2 N show.
Proof. reflexivity. Qed.

Lemma bayes_ttest_unset_groups :
  forall N show,
    bayes_ttest gen_data mcmc gaussian_kde None N show
    = compare_groups mcmc gaussian_kde (fst (gen_data 40)) (snd (gen_data 40)) N show.
Proof.
  intros. unfold bayes_ttest. now destruct (gen_data 40).
Qed.

Lemma bayes_ttest_wrong_count :
  forall gs N show,
    List.length gs <> 2%nat ->
    bayes_ttest gen_data mcmc gaussian_kde (Some gs) N show
    = ([Print (GroupCountMsg (List.length gs))], inr PyNone).
Proof.
  intros gs N show H. unfold bayes_ttest.
  destruct (Nat.eqb_spec (List.length gs) 2) as [E | _]; [contradiction | reflexivity].
Qed.

(** Either the groups are resolved and the run is that of
    [compare_groups], or the count is wrong and the run is the message. *)
Lemma bayes_ttest_cases :
  forall groups N show,
    (exists g1 g2,
        bayes_ttest gen_data mcmc gaussian_kde groups N show
        = compare_groups mcmc gaussian_kde g1 g2 N show)
    \/ (exists gs,
           groups = Some gs /\ List.length gs <> 2%nat /\
           bayes_ttest gen_data mcmc gaussian_kde groups N show
           = ([Print (GroupCountMsg (List.length gs))], inr PyNone)).
Proof.
  intros [gs |] N show.
  - destruct (Nat.eq_dec (List.length gs) 2) as [E | NE].
    + left. destruct gs as [| g1 [| g2 [| g3 gs]]]; try discriminate E.
      exists g1, g2. reflexivity.
    + right. exists gs. repeat split; trivial. now apply bayes_ttest_wrong_count.
  - left. exists (fst (gen_data 40)), (snd (gen_data 40)). apply bayes_ttest_unset_groups.
Qed.

End Runs.

(** ** Arrays *)

Lemma elementwise_map :
  forall (f : R -> R -> R) (g h : draw -> R) (db : list draw),
    Numpy.elementwise f (map g db) (map h db) = map (fun d => f (g d) (h d)) db.
Proof.
  intros f g h db. induction db as [| d db IH]; simpl; [reflexivity | now rewrite IH].
Qed.





(** ** The model *)

Section ModelClaims.

Variable gen_data : Z -> Sample * Sample.
Variable mcmc : Model -> Z -> Z -> Z -> sampling.
Variable gaussian_kde : Numpy.ndarray -> estimate.

(** C4: for every resolved pair of samples, whether supplied or generated,
    the model handed to the engine has exactly five latent parameters
    built from the pooled statistics: the two group means with normal
    priors centred at the pooled mean and of precision
    [1 / pooled variance / N], the two group scales with uniform priors
    from [pooled variance / 1000] to [pooled variance * 1000], and the
    shared parameter [nu] with an exponential prior. *)
Theorem model_has_five_latent_parameters :
  forall (g1 g2 : Sample) (N : Z) (show : bool),
    let m := Numpy.mean (Numpy.concatenate g1 g2) in
    let v := Numpy.var (Numpy.concatenate g1 g2) in
    sampled_models (events (bayes_ttest gen_data mcmc gaussian_kde (Some [g1; g2]) N show))
    = [build_model g1 g2 N]
    /\ sampled_models (events (bayes_ttest gen_data mcmc gaussian_kde None N show))
       = [build_model (fst (gen_data 40)) (snd (gen_data 40)) N]
    /\ latent (build_model g1 g2 N)
       = [Normal "mu_1" m (1 / v / IZR N);
          Uniform "sigma_1" (v / 1000) (v * 1000);
          Normal "mu_2" m (1 / v / IZR N);
          Uniform "sigma_2" (v / 1000) (v * 1000);
          Exponential "nu" (1 / 29)]
    /\ List.length (latent (build_model g1 g2 N)) = 5%nat.
Proof.
  intros g1 g2 N show m v. repeat split.
  - rewrite bayes_ttest_two_groups. apply sampled_models_compare_groups.
  - rewrite bayes_ttest_unset_groups. apply sampled_models_compare_groups.
Qed.

(** C8: in the model of every pair of groups the two observed likelihood
    nodes, the one of group 1 and the one of group 2, are both registered
    under the label ["t_1"]; no node is labelled ["t_2"]. *)
Theorem likelihood_nodes_share_label_t_1 :
  forall (g1 g2 : Sample) (N : Z) (show : bool),
    let model := build_model g1 g2 N in
    sampled_models (events (bayes_ttest gen_data mcmc gaussian_kde (Some [g1; g2]) N show)) = [model]
    /\ map node_value (likelihoods model) = [Some g1; Some g2]
    /\ map node_name (likelihoods model) = ["t_1"; "t_1"]
    /\ ~ In "t_2" (map node_name model).
Proof.
  intros g1 g2 N show model. split; [| split; [| split]].
  - rewrite bayes_ttest_two_groups. apply sampled_models_compare_groups.
  - reflexivity.
  - reflexivity.
  - cbn. intros H. repeat (destruct H as [H | H]; [discriminate H |]). exact H.
Qed.

End ModelClaims.

(** ** The run *)

Lemma forty_converts : converts_to_float 40.
Proof. vm_compute. reflexivity. Qed.

(** On the table [varied_draws] the estimator of scipy is made for the
    two mean traces and for their difference: each has two entries that
    differ. *)
Lemma varied_draws_estimated : densities_estimated gaussian_kde_model varied_draws.
Proof.
  unfold densities_estimated, gaussian_kde_model. cbn.
  repeat split.
  all: match goal with
       | |- context [Req_dec_T ?a ?b] =>
           destruct (Req_dec_T a b) as [F | _]; [exfalso; lra | reflexivity]
       end.
Qed.

Section RunClaims.

Variable gen_data : Z -> Sample * Sample.
Variable mcmc : Model -> Z -> Z -> Z -> sampling.
Variable gaussian_kde : Numpy.ndarray -> estimate.

(** C1, amended: for every run on exactly two samples, with an [N] that
    converts to a float, in which the engine answers with a table of
    draws and, when [show] is set, the table has a draw and the density
    estimator is made for the two mean traces and for their difference,
    [bayes_ttest] prints the group 1 mean estimate, the group 2 mean
    estimate and the effect size estimate, each the mean of its trace,
    and returns [None]; when [show] is set the two mean traces and the
    difference-of-means trace go to the plots, and are not returned
    either. *)
Theorem bayes_ttest_prints_summary_returns_none :
  forall (g1 g2 : Sample) (N : Z) (show : bool) (db : list draw),
    converts_to_float N ->
    mcmc (build_model g1 g2 N) 40000 10000 2 = inr db ->
    (show = true -> db <> [] /\ densities_estimated gaussian_kde db) ->
    let mus1 := trace mu_1 db in
    let mus2 := trace mu_2 db in
    let effect := effect_size mus1 mus2 (trace sigma_1 db) (trace sigma_2 db) in
    let r := bayes_ttest gen_data mcmc gaussian_kde (Some [g1; g2]) N show in
    outcome r = inr PyNone
    /\ printed (events r)
       = [SummaryMsg (Numpy.mean mus1) (Numpy.mean mus2) (Numpy.mean effect)]
    /\ plotted (events r)
       = (if show then [mus1; mus2; diff_mus mus1 mus2] else []).
Proof.
  intros g1 g2 N show db _ E Hs. cbv zeta.
  rewrite bayes_ttest_two_groups. now apply compare_groups_success.
Qed.

(** C2, amended: for every collection of groups whose length is not 2,
    [bayes_ttest] prints the message
    ['T-test requires only 2 groups, not <length>'] and returns [None]
    without raising an error; the engine is not called and nothing else
    happens.  For exactly two samples and an [N] that converts to a float
    the engine is called once and, when it answers with a table of draws
    and, with [show] set, the table has a draw and the density estimator
    is made for the three plotted traces, the call returns [None] as
    well. *)
Theorem wrong_group_count_prints_and_returns_none :
  forall (gs : list Sample) (N : Z) (show : bool),
    (List.length gs <> 2%nat ->
       bayes_ttest gen_data mcmc gaussian_kde (Some gs) N show
       = ([Print (GroupCountMsg (List.length gs))], inr PyNone)
       /\ sampler_calls (events (bayes_ttest gen_data mcmc gaussian_kde (Some gs) N show)) = [])
    /\ (forall g1 g2 db,
          gs = [g1; g2] ->
          converts_to_float N ->
          mcmc (build_model g1 g2 N) 40000 10000 2 = inr db ->
          (show = true -> db <> [] /\ densities_estimated gaussian_kde db) ->
          sampler_calls (events (bayes_ttest gen_data mcmc gaussian_kde (Some gs) N show))
          = [(40000, 10000, 2)%Z]
          /\ outcome (bayes_ttest gen_data mcmc gaussian_kde (Some gs) N show) = inr PyNone).
Proof.
  intros gs N show. split.
  - intros H. rewrite (bayes_ttest_wrong_count gen_data mcmc gaussian_kde gs N show H).
    split; reflexivity.
  - intros g1 g2 db -> _ E Hs. rewrite bayes_ttest_two_groups. split.
    + apply sampler_calls_compare_groups.
    + now apply (compare_groups_success mcmc gaussian_kde g1 g2 N show db E Hs).
Qed.


End RunClaims.

Lemma bayes_ttest_prints_summary_returns_none_witness :
  converts_to_float 40
  /\ engine_const varied_draws (build_model group_A group_B 40) 40000%Z 10000%Z 2%Z
     = inr varied_draws
  /\ densities_estimated gaussian_kde_model varied_draws
  /\ outcome (bayes_ttest gen_constant (engine_const varied_draws) gaussian_kde_model
                (Some [group_A; group_B]) 40 true)
     = inr PyNone
  /\ printed (events (bayes_ttest gen_constant (engine_const varied_draws)
                        gaussian_kde_model (Some [group_A; group_B]) 40 true))
     = [SummaryMsg (Numpy.mean [1; 3]) (Numpy.mean [5; 6])
          (Numpy.mean (effect_size [1; 3] [5; 6] [1; 1] [1; 1]))]
  /\ plotted (events (bayes_ttest gen_constant (engine_const varied_draws)
                        gaussian_kde_model (Some [group_A; group_B]) 40 true))
     = [[1; 3]; [5; 6]; diff_mus [1; 3] [5; 6]].
Proof.
  split; [exact forty_converts | split; [reflexivity | split; [exact varied_draws_estimated |]]].
  apply (bayes_ttest_prints_summary_returns_none gen_constant (engine_const varied_draws)
           gaussian_kde_model group_A group_B 40 true varied_draws).
  - exact forty_converts.
  - reflexivity.
  - intros _. split; [discriminate | exact varied_draws_estimated].
Defined.

(** C1 as stated fails: on the groups [[0, 2]] and [[4, 6]], with an engine
    that answers, the call returns [None], a value that holds neither an
    estimate nor a trace: without [show] on the table [two_draws], and with
    [show] on the table [varied_draws], for which the plots are drawn. *)
Lemma bayes_ttest_returns_no_result :
  (~ exists m1 m2 es mus1 mus2 diff,
       returns_result
         (bayes_ttest gen_constant (engine_const two_draws) gaussian_kde_model
            (Some [group_A; group_B]) 40 false)
         false m1 m2 es mus1 mus2 diff)
  /\ (~ exists m1 m2 es mus1 mus2 diff,
         returns_result
           (bayes_ttest gen_constant (engine_const varied_draws) gaussian_kde_model
              (Some [group_A; group_B]) 40 true)
           true m1 m2 es mus1 mus2 diff).
Proof.
  split.
  - intros (m1 & m2 & es & mus1 & mus2 & diff & v & Hv & H1 & _).
    rewrite bayes_ttest_two_groups in Hv.
    destruct (compare_groups_success (engine_const two_draws) gaussian_kde_model
                group_A group_B 40 false two_draws eq_refl) as (Ho & _).
    + discriminate.
    + rewrite Ho in Hv. inversion Hv; subst v. exact H1.
  - intros (m1 & m2 & es & mus1 & mus2 & diff & v & Hv & H1 & _).
    rewrite bayes_ttest_two_groups in Hv.
    destruct (compare_groups_success (engine_const varied_draws) gaussian_kde_model
                group_A group_B 40 true varied_draws eq_refl) as (Ho & _).
    + intros _. split; [discriminate | exact varied_draws_estimated].
    + rewrite Ho in Hv. inversion Hv; subst v. exact H1.
Qed.

Lemma wrong_group_count_prints_and_returns_none_witness :
  (List.length [group_A; group_B; group_C] <> 2%nat
   /\ bayes_ttest gen_constant (engine_const two_draws) gaussian_kde_model
        (Some [group_A; group_B; group_C]) 40 false
      = ([Print (GroupCountMsg 3)], inr PyNone)
   /\ sampler_calls
        (events (bayes_ttest gen_constant (engine_const two_draws) gaussian_kde_model
                   (Some [group_A; group_B; group_C]) 40 false))
      = [])
  /\ (converts_to_float 40
      /\ engine_const varied_draws (build_model group_A group_B 40) 40000%Z 10000%Z 2%Z
         = inr varied_draws
      /\ densities_estimated gaussian_kde_model varied_draws
      /\ sampler_calls
           (events (bayes_ttest gen_constant (engine_const varied_draws) gaussian_kde_model
                      (Some [group_A; group_B]) 40 true))
         = [(40000, 10000, 2)%Z]
      /\ outcome (bayes_ttest gen_constant (engine_const varied_draws) gaussian_kde_model
                    (Some [group_A; group_B]) 40 true)
         = inr PyNone).
Proof.
  split.
  - split; [discriminate |].
    apply (proj1 (wrong_group_count_prints_and_returns_none gen_constant
                    (engine_const two_draws) gaussian_kde_model
                    [group_A; group_B; group_C] 40 false)).
    discriminate.
  - split; [exact forty_converts | split; [reflexivity |
              split; [exact varied_draws_estimated |]]].
    apply (proj2 (wrong_group_count_prints_and_returns_none gen_constant
                    (engine_const varied_draws) gaussian_kde_model
                    [group_A; group_B] 40 true)
             group_A group_B varied_draws).
    + reflexivity.
    + exact forty_converts.
    + reflexivity.
    + intros _. split; [discriminate | exact varied_draws_estimated].
Defined.

(** C2 as stated fails: on three groups the call does not end in an error;
    it returns [None], the value a run on two groups returns too. *)
Lemma three_groups_do_not_raise :
  ~ fails (bayes_ttest gen_constant (engine_const two_draws) gaussian_kde_model
             (Some [group_A; group_B; group_C]) 40 false)
  /\ outcome (bayes_ttest gen_constant (engine_const two_draws) gaussian_kde_model
                (Some [group_A; group_B; group_C]) 40 false)
     = outcome (bayes_ttest gen_constant (engine_const two_draws) gaussian_kde_model
                  (Some [group_A; group_B]) 40 false).
Proof.
  split.
  - intros [e He]. discriminate He.
  - reflexivity.
Qed.


(** C3 fails on the code: with [groups] unset and [N = 10], and a
    generator that honours the size it is asked for, the two samples of
    the sampled model have 40 entries each, since the generator is called
    with the constant 40; [N = 10] reaches the prior precision only. *)
Theorem unset_groups_generate_forty_for_N_ten :
  forall (mcmc : Model -> Z -> Z -> Z -> sampling)
         (gaussian_kde : Numpy.ndarray -> estimate) (show : bool),
    let r := bayes_ttest gen_constant mcmc gaussian_kde None 10 show in
    sampled_models (events r) = [build_model (repeat 0 40) (repeat 2 40) 10]
    /\ map (fun n => option_map (@List.length R) (node_value n))
           (flat_map likelihoods (sampled_models (events r)))
       = [Some 40%nat; Some 40%nat]
    /\ map precision (flat_map latent (sampled_models (events r)))
       = (let tau := 1 / Numpy.var (repeat 0 40 ++ repeat 2 40) / 10 in
          [Some tau; None; Some tau; None; None]).
Proof.
  intros mcmc gaussian_kde show r. subst r.
  rewrite bayes_ttest_unset_groups, sampled_models_compare_groups.
  repeat split.
Qed.

(** ** The derived traces *)

(** C5: for every table of extracted traces and every draw [d] at an
    index [i], the difference-of-means trace holds [mu_1 - mu_2] of that
    draw, the effect-size trace holds
    [(mu_1 - mu_2) / sqrt ((sigma_1^2 + sigma_2^2) / 2)] of that draw and
    the normality indicator holds the natural logarithm of its [nu]; the
    derived traces are as long as the table.  The estimate printed for a
    group is the mean of its trace, the sum of the entries over their
    number. *)
Theorem derived_traces_are_elementwise :
  forall (gaussian_kde : Numpy.ndarray -> estimate)
         (db : list draw) (i : nat) (d : draw) (g1 g2 : Sample) (N : Z),
    nth_error db i = Some d ->
    let mus1 := trace mu_1 db in
    let mus2 := trace mu_2 db in
    let sigmas1 := trace sigma_1 db in
    let sigmas2 := trace sigma_2 db in
    nth_error (diff_mus mus1 mus2) i = Some (mu_1 d - mu_2 d)
    /\ nth_error (effect_size mus1 mus2 sigmas1 sigmas2) i
       = Some ((mu_1 d - mu_2 d)
               / sqrt ((sigma_1 d * sigma_1 d + sigma_2 d * sigma_2 d) / 2))
    /\ nth_error (normality (trace nu db)) i = Some (ln (nu d))
    /\ List.length (diff_mus mus1 mus2) = List.length db
    /\ List.length (effect_size mus1 mus2 sigmas1 sigmas2) = List.length db
    /\ List.length (normality (trace nu db)) = List.length db
    /\ printed (events (compare_groups (engine_const db) gaussian_kde g1 g2 N false))
       = [SummaryMsg (Numpy.sum mus1 / INR (List.length mus1))
                     (Numpy.sum mus2 / INR (List.length mus2))
                     (Numpy.mean (effect_size mus1 mus2 sigmas1 sigmas2))].
Proof.
  intros gaussian_kde db i d g1 g2 N H. cbv zeta.
  assert (Ed : diff_mus (trace mu_1 db) (trace mu_2 db)
               = map (fun d => mu_1 d - mu_2 d) db).
  { unfold diff_mus, Numpy.sub, trace. apply elementwise_map. }
  assert (Ee : effect_size (trace mu_1 db) (trace mu_2 db)
                 (trace sigma_1 db) (trace sigma_2 db)
               = map (fun d => (mu_1 d - mu_2 d)
                               / sqrt ((sigma_1 d * sigma_1 d + sigma_2 d * sigma_2 d) / 2))
                     db).
  { unfold effect_size, effect_divisor, Numpy.div, Numpy.sub, Numpy.sqrt,
      Numpy.div_scalar, Numpy.add, Numpy.power, trace.
    rewrite !map_map, !elementwise_map, map_map, elementwise_map.
    apply map_ext. intros a. simpl. now rewrite !Rmult_1_r. }
  assert (En : normality (trace nu db) = map (fun d => ln (nu d)) db).
  { unfold normality, Numpy.log, trace. apply map_map. }
  rewrite Ed, Ee, En. rewrite !nth_error_map, H, !length_map. simpl.
  repeat split.
  rewrite <- Ee.
  now destruct (compare_groups_success (engine_const db) gaussian_kde g1 g2 N false db
                  eq_refl) as (_ & Hp & _); [discriminate |].
Qed.

Lemma derived_traces_are_elementwise_witness :
  nth_error two_draws 1 = Some (Draw 3 5 1 1 30)
  /\ nth_error (diff_mus [1; 3] [5; 5]) 1 = Some (3 - 5)
  /\ nth_error (effect_size [1; 3] [5; 5] [1; 1] [1; 1]) 1
     = Some ((3 - 5) / sqrt ((1 * 1 + 1 * 1) / 2))
  /\ nth_error (normality [30; 30]) 1 = Some (ln 30).
Proof.
  split; [reflexivity |].
  destruct (derived_traces_are_elementwise gaussian_kde_model two_draws 1 (Draw 3 5 1 1 30)
              group_A group_B 40 eq_refl) as (H1 & H2 & H3 & _).
  exact (conj H1 (conj H2 H3)).
Defined.




(** ** The priors *)



(** C10: for every pair of supplied groups the precision of both
    group-mean priors is [1 / (pooled variance * N)], where [N] is the
    parameter of the function, 40 when the caller leaves it out, and not
    the length of a sample: two pairs of groups with the same pooled mean
    and the same pooled variance get the same priors under the same [N],
    whatever their lengths. *)
Theorem prior_precision_uses_parameter_N :
  forall (gen_data : Z -> Sample * Sample) (mcmc : Model -> Z -> Z -> Z -> sampling)
         (gaussian_kde : Numpy.ndarray -> estimate)
         (g1 g2 g1' g2' : Sample) (N : Z) (show : bool),
    Numpy.mean (pooled g1 g2) = Numpy.mean (pooled g1' g2') ->
    Numpy.var (pooled g1 g2) = Numpy.var (pooled g1' g2') ->
    let tau := 1 / (Numpy.var (pooled g1 g2) * IZR N) in
    map precision (latent (build_model g1 g2 N)) = [Some tau; None; Some tau; None; None]
    /\ map precision (latent (build_model g1' g2' N))
       = map precision (latent (build_model g1 g2 N))
    /\ latent (build_model g1' g2' N) = latent (build_model g1 g2 N)
    /\ sampled_models (events (bayes_ttest gen_data mcmc gaussian_kde (Some [g1; g2]) N show))
       = [build_model g1 g2 N]
    /\ bayes_ttest_call gen_data mcmc gaussian_kde (Some [g1; g2]) None (Some show)
       = bayes_ttest gen_data mcmc gaussian_kde (Some [g1; g2]) 40 show.
Proof.
  intros gen_data mcmc gaussian_kde g1 g2 g1' g2' N show Hm Hv tau.
  assert (L : latent (build_model g1' g2' N) = latent (build_model g1 g2 N)).
  { unfold build_model, latent, prior_mu, prior_sigma. cbn [filter observed negb].
    cbv zeta. now rewrite Hm, Hv. }
  split; [| split; [now rewrite L | split; [exact L | split; [| reflexivity]]]].
  - unfold build_model, latent, prior_mu, prior_sigma. cbn [filter observed negb map precision].
    cbv zeta. subst tau.
    replace (1 / Numpy.var (pooled g1 g2) / IZR N)
      with (1 / (Numpy.var (pooled g1 g2) * IZR N)); [reflexivity |].
    unfold Rdiv. rewrite Rinv_mult. ring.
  - rewrite bayes_ttest_two_groups. apply sampled_models_compare_groups.
Qed.

Lemma prior_precision_uses_parameter_N_witness :
  Numpy.mean (pooled [0; 2] [0; 2]) = Numpy.mean (pooled [0; 2; 0; 2] [0; 2])
  /\ Numpy.var (pooled [0; 2] [0; 2]) = Numpy.var (pooled [0; 2; 0; 2] [0; 2])
  /\ List.length [0; 2; 0; 2] <> List.length [0; 2]
  /\ map precision (latent (build_model [0; 2; 0; 2] [0; 2] 40))
     = map precision (latent (build_model [0; 2] [0; 2] 40))
  /\ map precision (latent (build_model [0; 2] [0; 2] 40))
     = [Some (1 / (Numpy.var (pooled [0; 2] [0; 2]) * 40)); None;
        Some (1 / (Numpy.var (pooled [0; 2] [0; 2]) * 40)); None; None].
Proof.
  assert (M4 : Numpy.mean (pooled [0; 2] [0; 2]) = 1).
  { unfold Numpy.mean, Numpy.sum. simpl. lra. }
  assert (M6 : Numpy.mean (pooled [0; 2; 0; 2] [0; 2]) = 1).
  { unfold Numpy.mean, Numpy.sum. simpl. lra. }
  assert (Hm : Numpy.mean (pooled [0; 2] [0; 2])
               = Numpy.mean (pooled [0; 2; 0; 2] [0; 2])).
  { now rewrite M4, M6. }
  assert (Hv : Numpy.var (pooled [0; 2] [0; 2])
               = Numpy.var (pooled [0; 2; 0; 2] [0; 2])).
  { unfold Numpy.var. cbv zeta. rewrite M4, M6.
    unfold Numpy.mean, Numpy.sum. simpl. lra. }
  split; [exact Hm | split; [exact Hv | split; [discriminate |]]].
  destruct (prior_precision_uses_parameter_N gen_constant (engine_const two_draws)
              gaussian_kde_model [0; 2] [0; 2] [0; 2; 0; 2] [0; 2] 40 false Hm Hv)
    as (H1 & H2 & _).
  exact (conj H2 H1).
Defined.

(** * Further properties of [bayes_ttest] *)

(** ** Failures *)

(** X1: when the engine fails, its exception is the outcome of the call; the
    engine has been called once, and nothing is printed or plotted. *)
Theorem engine_failure_propagates :
  forall (gen_data : Z -> Sample * Sample) (mcmc : Model -> Z -> Z -> Z -> sampling)
         (gaussian_kde : Numpy.ndarray -> estimate)
         (g1 g2 : Sample) (N : Z) (show : bool) (e : exception),
    mcmc (build_model g1 g2 N) 40000%Z 10000%Z 2%Z = inl e ->
    let r := bayes_ttest gen_data mcmc gaussian_kde (Some [g1; g2]) N show in
    outcome r = inl e
    /\ sampler_calls (events r) = [(40000, 10000, 2)%Z]
    /\ printed (events r) = []
    /\ plotted (events r) = [].
Proof.
  intros gen_data mcmc gaussian_kde g1 g2 N show e E r. subst r.
  rewrite bayes_ttest_two_groups.
  rewrite (compare_groups_engine_failure mcmc gaussian_kde g1 g2 N show e E).
  repeat split.
Qed.

Lemma engine_failure_propagates_witness :
  engine_failing (build_model group_A group_B 40) 40000%Z 10000%Z 2%Z
  = inl (SamplingError "no convergence")
  /\ outcome (bayes_ttest gen_constant engine_failing gaussian_kde_model (Some [group_A; group_B]) 40 true)
     = inl (SamplingError "no convergence")
  /\ printed (events (bayes_ttest gen_constant engine_failing gaussian_kde_model
                        (Some [group_A; group_B]) 40 true)) = [].
Proof.
  split; [reflexivity |].
  destruct (engine_failure_propagates gen_constant engine_failing gaussian_kde_model
              group_A group_B 40 true
              (SamplingError "no convergence") eq_refl) as (H1 & _ & H2 & _).
  exact (conj H1 H2).
Defined.

(** X2: when the engine answers with an empty table and [show] is set, the
    summary is printed first and the call then ends in the [ValueError]
    of [min] on an empty sequence, before anything is plotted.  Without
    [show] the same answer gives a normal return. *)
Theorem empty_table_fails_only_when_plotting :
  forall (gen_data : Z -> Sample * Sample) (mcmc : Model -> Z -> Z -> Z -> sampling)
         (gaussian_kde : Numpy.ndarray -> estimate)
         (g1 g2 : Sample) (N : Z),
    mcmc (build_model g1 g2 N) 40000%Z 10000%Z 2%Z = inr [] ->
    outcome (bayes_ttest gen_data mcmc gaussian_kde (Some [g1; g2]) N true)
    = inl (ValueError "min() arg is an empty sequence")
    /\ List.length (printed (events (bayes_ttest gen_data mcmc gaussian_kde (Some [g1; g2]) N true)))
       = 1%nat
    /\ plotted (events (bayes_ttest gen_data mcmc gaussian_kde (Some [g1; g2]) N true)) = []
    /\ ~ In PlotShow (events (bayes_ttest gen_data mcmc gaussian_kde (Some [g1; g2]) N true))
    /\ outcome (bayes_ttest gen_data mcmc gaussian_kde (Some [g1; g2]) N false) = inr PyNone.
Proof.
  intros gen_data mcmc gaussian_kde g1 g2 N E.
  rewrite !bayes_ttest_two_groups. unfold compare_groups, mcmc_sample. rewrite E.
  cbn. repeat split.
  intros [H | [H | []]]; discriminate H.
Qed.

Lemma empty_table_fails_only_when_plotting_witness :
  engine_const [] (build_model group_A group_B 40) 40000%Z 10000%Z 2%Z = inr []
  /\ outcome (bayes_ttest gen_constant (engine_const []) gaussian_kde_model (Some [group_A; group_B]) 40 true)
     = inl (ValueError "min() arg is an empty sequence")
  /\ outcome (bayes_ttest gen_constant (engine_const []) gaussian_kde_model (Some [group_A; group_B]) 40 false)
     = inr PyNone.
Proof.
  split; [reflexivity |].
  destruct (empty_table_fails_only_when_plotting gen_constant (engine_const [])
              gaussian_kde_model
              group_A group_B 40 eq_refl) as (H1 & _ & _ & _ & H2).
  exact (conj H1 H2).
Defined.

(** ** The plots *)

Lemma fold_left_Rmin_spec :
  forall (a : list R) (x : R),
    In (fold_left Rmin a x) (x :: a)
    /\ Forall (fun y => fold_left Rmin a x <= y) (x :: a).
Proof.
  induction a as [| y a IH]; intros x; simpl.
  - split; [now left | constructor; [lra | constructor]].
  - destruct (IH (Rmin x y)) as (Hin & Hall).
    inversion Hall as [| ? ? Hm Ha]; subst.
    pose proof (Rmin_l x y). pose proof (Rmin_r x y).
    split.
    + destruct Hin as [Hin | Hin]; [| now right; right].
      rewrite <- Hin. unfold Rmin. destruct (Rle_dec x y); [now left | now right; left].
    + constructor; [lra | constructor; [lra | exact Ha]].
Qed.

Lemma fold_left_Rmax_spec :
  forall (a : list R) (x : R),
    In (fold_left Rmax a x) (x :: a)
    /\ Forall (fun y => y <= fold_left Rmax a x) (x :: a).
Proof.
  induction a as [| y a IH]; intros x; simpl.
  - split; [now left | constructor; [lra | constructor]].
  - destruct (IH (Rmax x y)) as (Hin & Hall).
    inversion Hall as [| ? ? Hm Ha]; subst.
    pose proof (Rmax_l x y). pose proof (Rmax_r x y).
    split.
    + destruct Hin as [Hin | Hin]; [| now right; right].
      rewrite <- Hin. unfold Rmax. destruct (Rle_dec x y); [now right; left | now left].
    + constructor; [lra | constructor; [lra | exact Ha]].
Qed.


Lemma py_max_spec :
  forall (a : list R), a <> [] ->
    exists m, py_max a = inr m /\ In m a /\ Forall (fun y => y <= m) a.
Proof.
  intros [| x a] H; [contradiction |].
  exists (fold_left Rmax a x). split; [reflexivity |]. apply fold_left_Rmax_spec.
Qed.




(** X4: without [show] no call plots anything, whatever the groups and
    whatever the engine answers. *)
Theorem no_plot_without_show :
  forall (gen_data : Z -> Sample * Sample) (mcmc : Model -> Z -> Z -> Z -> sampling)
         (gaussian_kde : Numpy.ndarray -> estimate)
         (groups : option (list Sample)) (N : Z),
    let r := bayes_ttest gen_data mcmc gaussian_kde groups N false in
    plotted (events r) = []
    /\ ~ In PlotShow (events r)
    /\ (List.length (events r) <= 2)%nat.
Proof.
  intros gen_data mcmc gaussian_kde groups N r. subst r.
  destruct (bayes_ttest_cases gen_data mcmc gaussian_kde groups N false)
    as [(g1 & g2 & ->) | (gs & _ & _ & ->)].
  - unfold compare_groups, mcmc_sample.
    destruct (mcmc (build_model g1 g2 N) 40000%Z 10000%Z 2%Z) as [e | db]; cbn.
    + repeat split; [| lia]. intros [H | []]; discriminate H.
    + repeat split; [| lia]. intros [H | [H | []]]; discriminate H.
  - cbn. repeat split; [| lia]. intros [H | []]; discriminate H.
Qed.

(** ** The plots *)

(** X5: with [show] set, an [N] that converts to a float, a table of at
    least one draw and the three density estimators made, the call does
    five things in this order: it calls the engine, prints the summary,
    plots the densities of the two mean traces on one axis, plots the
    density of their difference on a second one, and shows the figure.
    The range of the first axis runs from the smallest to the largest
    entry of the two mean traces together, the range of the second from
    the smallest to the largest difference, so that no draw falls outside
    its plot. *)
Theorem plots_span_the_traces :
  forall (gen_data : Z -> Sample * Sample) (mcmc : Model -> Z -> Z -> Z -> sampling)
         (gaussian_kde : Numpy.ndarray -> estimate)
         (g1 g2 : Sample) (N : Z) (db : list draw),
    converts_to_float N ->
    mcmc (build_model g1 g2 N) 40000%Z 10000%Z 2%Z = inr db ->
    db <> [] ->
    densities_estimated gaussian_kde db ->
    let mus1 := trace mu_1 db in
    let mus2 := trace mu_2 db in
    let diff := diff_mus mus1 mus2 in
    let effect := effect_size mus1 mus2 (trace sigma_1 db) (trace sigma_2 db) in
    exists lo hi dlo dhi,
      events (bayes_ttest gen_data mcmc gaussian_kde (Some [g1; g2]) N true)
      = [McmcSample (build_model g1 g2 N) 40000 10000 2;
         Print (SummaryMsg (Numpy.mean mus1) (Numpy.mean mus2) (Numpy.mean effect));
         PlotDensities "$\mu_1$ vs $\mu_2$" lo hi [mus1; mus2];
         PlotDensities "$\mu_1-\mu_2$" dlo dhi [diff];
         PlotShow]
      /\ Forall (fun x => lo <= x <= hi) (mus1 ++ mus2)
      /\ In lo (mus1 ++ mus2) /\ In hi (mus1 ++ mus2)
      /\ Forall (fun x => dlo <= x <= dhi) diff
      /\ In dlo diff /\ In dhi diff.
Proof.
  intros gen_data mcmc gaussian_kde g1 g2 N db _ E Hne (K1 & K2 & K3)
         mus1 mus2 diff effect.
  destruct db as [| d db']; [contradiction |].
  set (m1 := map mu_1 db'). set (m2 := map mu_2 db').
  set (dd := Numpy.elementwise Rminus m1 m2).
  destruct (fold_left_Rmin_spec m1 (mu_1 d)) as (Ia1 & La1).
  destruct (fold_left_Rmin_spec m2 (mu_2 d)) as (Ia2 & La2).
  destruct (fold_left_Rmax_spec m1 (mu_1 d)) as (Ib1 & Lb1).
  destruct (fold_left_Rmax_spec m2 (mu_2 d)) as (Ib2 & Lb2).
  destruct (fold_left_Rmin_spec dd (mu_1 d - mu_2 d)) as (Idlo & Ldlo).
  destruct (fold_left_Rmax_spec dd (mu_1 d - mu_2 d)) as (Idhi & Ldhi).
  exists (Rmin (fold_left Rmin m1 (mu_1 d)) (fold_left Rmin m2 (mu_2 d))),
         (Rmax (fold_left Rmax m1 (mu_1 d)) (fold_left Rmax m2 (mu_2 d))),
         (fold_left Rmin dd (mu_1 d - mu_2 d)),
         (fold_left Rmax dd (mu_1 d - mu_2 d)).
  assert (S1 : mus1 = mu_1 d :: m1) by reflexivity.
  assert (S2 : mus2 = mu_2 d :: m2) by reflexivity.
  assert (Sd : diff = (mu_1 d - mu_2 d) :: dd) by reflexivity.
  split; [| split; [| split; [| split; [| split; [| split]]]]].
  - rewrite bayes_ttest_two_groups. unfold compare_groups, mcmc_sample.
    rewrite E. cbn [bind emit lift ret fst snd app events].
    unfold show_plots. rewrite K1, K2, K3. reflexivity.
  - rewrite S1, S2.
    set (a1 := fold_left Rmin m1 (mu_1 d)) in *.
    set (a2 := fold_left Rmin m2 (mu_2 d)) in *.
    set (b1 := fold_left Rmax m1 (mu_1 d)) in *.
    set (b2 := fold_left Rmax m2 (mu_2 d)) in *.
    pose proof (Rmin_l a1 a2). pose proof (Rmin_r a1 a2).
    pose proof (Rmax_l b1 b2). pose proof (Rmax_r b1 b2).
    rewrite Forall_forall in *. intros x Hx. apply in_app_or in Hx.
    destruct Hx as [Hx | Hx].
    + specialize (La1 x Hx). specialize (Lb1 x Hx). simpl in *. lra.
    + specialize (La2 x Hx). specialize (Lb2 x Hx). simpl in *. lra.
  - rewrite S1, S2. apply in_or_app. unfold Rmin.
    destruct (Rle_dec _ _); [now left | now right].
  - rewrite S1, S2. apply in_or_app. unfold Rmax.
    destruct (Rle_dec _ _); [now right | now left].
  - rewrite Sd. rewrite Forall_forall in *. intros x Hx.
    specialize (Ldlo x Hx). specialize (Ldhi x Hx). simpl in *. lra.
  - rewrite Sd. exact Idlo.
  - rewrite Sd. exact Idhi.
Qed.

Lemma plots_span_the_traces_witness :
  converts_to_float 40
  /\ engine_const varied_draws (build_model group_A group_B 40) 40000%Z 10000%Z 2%Z
     = inr varied_draws
  /\ varied_draws <> []
  /\ densities_estimated gaussian_kde_model varied_draws
  /\ exists lo hi dlo dhi,
       plotted (events (bayes_ttest gen_constant (engine_const varied_draws)
                          gaussian_kde_model (Some [group_A; group_B]) 40 true))
       = [[1; 3]; [5; 6]; diff_mus [1; 3] [5; 6]]
       /\ Forall (fun x => lo <= x <= hi) [1; 3; 5; 6]
       /\ Forall (fun x => dlo <= x <= dhi) (diff_mus [1; 3] [5; 6]).
Proof.
  split; [exact forty_converts | split; [reflexivity | split; [discriminate |
    split; [exact varied_draws_estimated |]]]].
  destruct (plots_span_the_traces gen_constant (engine_const varied_draws)
              gaussian_kde_model group_A group_B 40 varied_draws forty_converts eq_refl)
    as (lo & hi & dlo & dhi & He & Hr & _ & _ & Hd & _);
    [discriminate | exact varied_draws_estimated |].
  exists lo, hi, dlo, dhi. split; [| split; [exact Hr | exact Hd]].
  rewrite He. reflexivity.
Defined.

(** ** The summaries *)

Lemma effect_size_map :
  forall db : list draw,
    effect_size (trace mu_1 db) (trace mu_2 db) (trace sigma_1 db) (trace sigma_2 db)
    = map (fun d => (mu_1 d - mu_2 d)
                    / sqrt ((sigma_1 d * sigma_1 d + sigma_2 d * sigma_2 d) / 2)) db.
Proof.
  intros db.
  unfold effect_size, effect_divisor, Numpy.div, Numpy.sub, Numpy.sqrt,
    Numpy.div_scalar, Numpy.add, Numpy.power, trace.
  rewrite !map_map, !elementwise_map, map_map, elementwise_map.
  apply map_ext. intros a. simpl. now rewrite !Rmult_1_r.
Qed.

Lemma sum_map_opp :
  forall l : list R, Numpy.sum (map Ropp l) = - Numpy.sum l.
Proof.
  intros l. unfold Numpy.sum.
  induction l as [| x l IH]; simpl; [lra | rewrite IH; lra].
Qed.

Lemma mean_map_opp :
  forall l : list R, Numpy.mean (map Ropp l) = - Numpy.mean l.
Proof.
  intros l. unfold Numpy.mean. rewrite sum_map_opp, length_map. unfold Rdiv. ring.
Qed.

(** X8: swapping the labels of the two groups in the table of draws swaps the
    two printed means and negates every entry of the effect size, and so
    the printed effect size estimate. *)
Theorem swapping_groups_negates_effect_size :
  forall (gaussian_kde : Numpy.ndarray -> estimate)
         (db : list draw) (g1 g2 : Sample) (N : Z),
    let mus1 := trace mu_1 db in
    let mus2 := trace mu_2 db in
    let effect := effect_size mus1 mus2 (trace sigma_1 db) (trace sigma_2 db) in
    let sw := map swap_draw db in
    effect_size (trace mu_1 sw) (trace mu_2 sw) (trace sigma_1 sw) (trace sigma_2 sw)
    = map Ropp effect
    /\ printed (events (compare_groups (engine_const db) gaussian_kde g1 g2 N false))
       = [SummaryMsg (Numpy.mean mus1) (Numpy.mean mus2) (Numpy.mean effect)]
    /\ printed (events (compare_groups (engine_const sw) gaussian_kde g1 g2 N false))
       = [SummaryMsg (Numpy.mean mus2) (Numpy.mean mus1) (- Numpy.mean effect)].
Proof.
  intros gaussian_kde db g1 g2 N mus1 mus2 effect sw.
  assert (Es : effect_size (trace mu_1 sw) (trace mu_2 sw) (trace sigma_1 sw)
                 (trace sigma_2 sw) = map Ropp effect).
  { subst effect mus1 mus2 sw. rewrite !effect_size_map, !map_map.
    apply map_ext. intros d. simpl.
    replace (sigma_2 d * sigma_2 d + sigma_1 d * sigma_1 d)
      with (sigma_1 d * sigma_1 d + sigma_2 d * sigma_2 d) by ring.
    unfold Rdiv. ring. }
  split; [exact Es | split].
  - now destruct (compare_groups_success (engine_const db) gaussian_kde g1 g2 N false db
                    eq_refl)
      as (_ & Hp & _); [discriminate |].
  - destruct (compare_groups_success (engine_const sw) gaussian_kde g1 g2 N false sw
                eq_refl)
      as (_ & Hp & _); [discriminate |].
    rewrite Hp, Es, mean_map_opp. subst mus1 mus2 sw. unfold trace.
    rewrite !map_map. reflexivity.
Qed.

(** ** Sums of counts *)

Lemma sum_nonneg :
  forall l : list R, Forall (fun x => 0 <= x) l -> 0 <= Numpy.sum l.
Proof.
  intros l H. unfold Numpy.sum. induction H as [| x l Hx Hl IH]; simpl; lra.
Qed.

(** * The cell "Simple p-substitute values" *)

(** ** Bin centres *)

Lemma bincents_cons :
  forall (x y : R) (rest : list R),
    bincents (x :: y :: rest) = 0.5 * (x + y) :: bincents (y :: rest).
Proof. reflexivity. Qed.

Lemma bincents_length :
  forall bins : Numpy.ndarray, List.length (bincents bins) = pred (List.length bins).
Proof.
  intros bins. induction bins as [| x [| y rest] IH]; try reflexivity.
  rewrite bincents_cons. simpl List.length in *. now rewrite IH.
Qed.

Lemma bincents_above :
  forall (lo : R) (bins : Numpy.ndarray),
    Forall (fun e => lo <= e) bins ->
    StronglySorted Rlt bins ->
    Forall (fun c => lo < c) (bincents bins).
Proof.
  intros lo bins. induction bins as [| x [| y rest] IH]; intros Hlo Hs.
  1-2: constructor.
  rewrite bincents_cons. inversion Hlo as [| ? ? Hx Hlo']; subst.
  inversion Hs as [| ? ? Hs' Hall]; subst. inversion Hall; subst.
  constructor; [lra | now apply IH].
Qed.

Lemma bincents_increasing :
  forall bins : Numpy.ndarray,
    StronglySorted Rlt bins -> StronglySorted Rlt (bincents bins).
Proof.
  intros bins. induction bins as [| x [| y rest] IH]; intros Hs.
  1-2: constructor.
  rewrite bincents_cons. inversion Hs as [| ? ? Hs' Hall]; subst.
  inversion Hall as [| ? ? Hxy Hrest]; subst.
  constructor; [now apply IH |].
  assert (B : Forall (fun c => y < c) (bincents (y :: rest))).
  { apply bincents_above; [| exact Hs'].
    inversion Hs' as [| ? ? _ Hy]; subst. constructor; [lra |].
    eapply Forall_impl; [| exact Hy]. intros a Ha. simpl in Ha. lra. }
  eapply Forall_impl; [| exact B]. intros c Hc. simpl in Hc. lra.
Qed.

Lemma increasing_NoDup :
  forall l : list R, StronglySorted Rlt l -> NoDup l.
Proof.
  intros l H. induction H as [| x l Hs IH Hall]; constructor; [| exact IH].
  intros Hin. rewrite Forall_forall in Hall. specialize (Hall x Hin). lra.
Qed.

(** ** The lookup [list(bincents).index(b)] *)

Lemma list_index_first :
  forall (b : R) (done rest : list R),
    ~ In b done -> list_index b (done ++ b :: rest) = Some (List.length done).
Proof.
  intros b done rest. induction done as [| x done IH]; intros Hn; simpl.
  - destruct (Req_dec_T b b) as [_ | Hb]; [reflexivity | contradiction].
  - destruct (Req_dec_T x b) as [E | _].
    + exfalso. apply Hn. now left.
    + rewrite IH; [reflexivity |]. intros Hin. apply Hn. now right.
Qed.

Lemma list_index_found :
  forall (b : R) (a : list R),
    In b a -> exists i, list_index b a = Some i /\ (i < List.length a)%nat.
Proof.
  intros b a. induction a as [| x a IH]; intros Hin; [contradiction |]. simpl.
  destruct (Req_dec_T x b) as [E | NE].
  - exists 0%nat. split; [reflexivity | lia].
  - destruct Hin as [Hx | Hin]; [contradiction |].
    destruct (IH Hin) as (i & Hi & Hlt). rewrite Hi. exists (S i). split; [reflexivity | lia].
Qed.

Lemma skipn_nth_error :
  forall (A : Type) (l : list A) (n : nat),
    (n < List.length l)%nat ->
    exists c, nth_error l n = Some c /\ skipn n l = c :: skipn (S n) l.
Proof.
  intros A l. induction l as [| x l IH]; intros n Hn; [simpl in Hn; lia |].
  destruct n as [| n]; [now exists x |].
  destruct (IH n) as (c & Hc & Hs); [simpl in Hn; lia |].
  exists c. split; [exact Hc | exact Hs].
Qed.

Lemma py_sum_sum :
  forall a : list R, py_sum a = Numpy.sum a.
Proof.
  intros a. unfold py_sum, Numpy.sum.
  assert (G : forall s, fold_left Rplus a s = s + fold_right Rplus 0 a).
  { induction a as [| x a IH]; intros s; simpl; [lra | rewrite IH; lra]. }
  rewrite G. lra.
Qed.

(** ** The loop *)

Lemma colour_bins_red :
  forall (cnts centres rest : Numpy.ndarray) (b : R) (cols : list string) (s : R),
    b < 0 ->
    colour_bins cnts centres (b :: rest) cols s
    = colour_bins cnts centres rest (cols ++ ["red"]) s
    /\ colour_of b = "red"
    /\ forall c cs, counts_above (b :: rest) (c :: cs) = counts_above rest cs.
Proof.
  intros cnts centres rest b cols s H. unfold colour_of. simpl.
  destruct (Rlt_dec b 0); [auto | contradiction].
Qed.

Lemma colour_bins_blue :
  forall (cnts centres rest : Numpy.ndarray) (b : R) (cols : list string) (s : R),
    ~ b < 0 ->
    colour_bins cnts centres (b :: rest) cols s
    = match list_index b centres with
      | None => inl (Builtin (ValueError "value is not in list"))
      | Some i =>
          match nth_error cnts i with
          | None => inl (IndexError i (List.length cnts))
          | Some c => colour_bins cnts centres rest (cols ++ ["blue"]) (s + c)
          end
      end
    /\ colour_of b = "blue"
    /\ forall c cs, counts_above (b :: rest) (c :: cs) = c :: counts_above rest cs.
Proof.
  intros cnts centres rest b cols s H. unfold colour_of. simpl.
  destruct (Rlt_dec b 0); [contradiction | auto].
Qed.

(** With a count for every centre and centres that differ from one
    another, the loop ends without an exception: every centre still to
    visit adds its colour, and every centre that is not below 0 adds the
    count at its own position. *)
Lemma colour_bins_spec :
  forall (cnts todo done : Numpy.ndarray) (cols : list string) (s : R),
    NoDup (done ++ todo) ->
    (List.length (done ++ todo) <= List.length cnts)%nat ->
    colour_bins cnts (done ++ todo) todo cols s
    = inr (cols ++ map colour_of todo,
           s + Numpy.sum (counts_above todo (skipn (List.length done) cnts))).
Proof.
  intros cnts todo. induction todo as [| b rest IH]; intros done cols s Hnd Hlen.
  - simpl. rewrite app_nil_r. f_equal. f_equal. unfold Numpy.sum. simpl. lra.
  - assert (Hb : ~ In b done).
    { apply NoDup_remove_2 in Hnd. intros Hin. apply Hnd. apply in_or_app. now left. }
    assert (Hd : (List.length done < List.length cnts)%nat).
    { rewrite length_app in Hlen. simpl in Hlen. lia. }
    destruct (skipn_nth_error R cnts (List.length done) Hd) as (c & Hc & Hs).
    assert (Hnext : done ++ b :: rest = (done ++ [b]) ++ rest)
      by (now rewrite <- app_assoc).
    assert (Hl : List.length (done ++ [b]) = S (List.length done))
      by (rewrite length_app; simpl; lia).
    rewrite Hs. change (map colour_of (b :: rest)) with (colour_of b :: map colour_of rest).
    destruct (Rlt_dec b 0) as [Hneg | Hpos].
    + destruct (colour_bins_red cnts (done ++ b :: rest) rest b cols s Hneg)
        as (-> & -> & ->).
      rewrite Hnext, IH; [| now rewrite <- Hnext | now rewrite <- Hnext].
      rewrite Hl, <- app_assoc. reflexivity.
    + destruct (colour_bins_blue cnts (done ++ b :: rest) rest b cols s Hpos)
        as (-> & -> & ->).
      rewrite (list_index_first b done rest Hb), Hc.
      rewrite Hnext, IH; [| now rewrite <- Hnext | now rewrite <- Hnext].
      rewrite Hl, <- app_assoc. f_equal. f_equal.
      unfold Numpy.sum. simpl. lra.
Qed.

(** Whatever the counts, the loop ends with the colours and a count, or
    with the [IndexError] of a position that the counts do not have; the
    lookup of a centre among the centres always finds it. *)
Lemma colour_bins_outcomes :
  forall (cnts centres todo : Numpy.ndarray) (cols : list string) (s : R),
    incl todo centres ->
    (exists s', colour_bins cnts centres todo cols s
                = inr (cols ++ map colour_of todo, s'))
    \/ (exists i, colour_bins cnts centres todo cols s
                  = inl (IndexError i (List.length cnts))
                  /\ (List.length cnts <= i < List.length centres)%nat).
Proof.
  intros cnts centres todo. induction todo as [| b rest IH]; intros cols s Hin.
  - left. exists s. simpl. now rewrite app_nil_r.
  - assert (Hrest : incl rest centres) by (intros x Hx; apply Hin; now right).
    change (map colour_of (b :: rest)) with (colour_of b :: map colour_of rest).
    destruct (Rlt_dec b 0) as [Hneg | Hpos].
    + destruct (colour_bins_red cnts centres rest b cols s Hneg) as (-> & -> & _).
      destruct (IH (cols ++ ["red"]) s Hrest) as [(s' & E) | (i & E & Hi)].
      * left. exists s'. rewrite E, <- app_assoc. reflexivity.
      * right. exists i. now split.
    + destruct (colour_bins_blue cnts centres rest b cols s Hpos) as (-> & -> & _).
      destruct (list_index_found b centres) as (i & Ei & Hi); [apply Hin; now left |].
      rewrite Ei. destruct (nth_error cnts i) as [c |] eqn:Ec.
      * destruct (IH (cols ++ ["blue"]) (s + c) Hrest) as [(s' & E) | (j & E & Hj)].
        -- left. exists s'. rewrite E, <- app_assoc. reflexivity.
        -- right. exists j. now split.
      * right. exists i. split; [reflexivity |].
        apply nth_error_None in Ec. lia.
Qed.

Lemma colour_bins_all :
  forall (cnts centres : Numpy.ndarray),
    NoDup centres ->
    (List.length centres <= List.length cnts)%nat ->
    colour_bins cnts centres centres [] 0
    = inr (map colour_of centres, Numpy.sum (counts_above centres cnts)).
Proof.
  intros cnts centres Hnd Hlen.
  pose proof (colour_bins_spec cnts centres [] [] 0 Hnd Hlen) as H.
  cbn [app List.length skipn] in H. rewrite H. f_equal. f_equal. lra.
Qed.

Lemma counts_above_bounds :
  forall (centres cnts : Numpy.ndarray),
    Forall (fun c => 0 <= c) cnts ->
    0 <= Numpy.sum (counts_above centres cnts) <= Numpy.sum cnts.
Proof.
  intros centres. induction centres as [| b centres IH]; intros cnts H.
  - pose proof (sum_nonneg cnts H). destruct cnts; unfold Numpy.sum in *; simpl in *; lra.
  - destruct H as [| c cnts Hc Hl]; [unfold Numpy.sum; simpl; lra |].
    specialize (IH cnts Hl). unfold Numpy.sum in *. simpl.
    destruct (Rlt_dec b 0); simpl; lra.
Qed.

Lemma counts_above_all :
  forall (centres cnts : Numpy.ndarray),
    Forall (fun b => 0 <= b) centres ->
    List.length centres = List.length cnts ->
    counts_above centres cnts = cnts /\
    map colour_of centres = repeat "blue" (List.length cnts).
Proof.
  intros centres. induction centres as [| b centres IH]; intros [| c cnts] H L;
    try discriminate L.
  - now split.
  - inversion H as [| ? ? Hb Hr]; subst. injection L as L.
    destruct (IH cnts Hr L) as (E1 & E2). simpl. unfold colour_of at 1.
    destruct (Rlt_dec b 0); [lra |]. rewrite E1, E2. now split.
Qed.

Lemma counts_above_none :
  forall (centres cnts : Numpy.ndarray),
    Forall (fun b => b < 0) centres ->
    List.length centres = List.length cnts ->
    counts_above centres cnts = [] /\
    map colour_of centres = repeat "red" (List.length cnts).
Proof.
  intros centres. induction centres as [| b centres IH]; intros [| c cnts] H L;
    try discriminate L.
  - now split.
  - inversion H as [| ? ? Hb Hr]; subst. injection L as L.
    destruct (IH cnts Hr L) as (E1 & E2). simpl. unfold colour_of at 1.
    destruct (Rlt_dec b 0); [| contradiction]. rewrite E1, E2. now split.
Qed.

(** Colours along increasing centres: reds, then blues. *)
Lemma colours_red_then_blue :
  forall centres : Numpy.ndarray,
    StronglySorted Rlt centres ->
    exists k, (k <= List.length centres)%nat /\
      map colour_of centres
      = repeat "red" k ++ repeat "blue" (List.length centres - k).
Proof.
  intros centres H. induction H as [| b centres Hs IH Hall].
  - exists 0%nat. now split.
  - destruct (Rlt_dec b 0) as [Hneg | Hpos].
    + destruct IH as (k & Hk & E). exists (S k). split; [simpl; lia |].
      simpl. unfold colour_of at 1. destruct (Rlt_dec b 0); [| contradiction].
      now rewrite E.
    + exists 0%nat. split; [lia |]. rewrite Nat.sub_0_r.
      assert (A : Forall (fun c => 0 <= c) (b :: centres)).
      { constructor; [lra |]. eapply Forall_impl; [| exact Hall].
        intros c Hc. simpl in Hc. lra. }
      destruct (counts_above_all (b :: centres) (b :: centres) A eq_refl) as (_ & E).
      exact E.
Qed.

(** ** One pass of the loop *)

(** X12: for the output of a histogram, increasing bin edges with one count
    per bin, a pass raises nothing.  Every patch is given the colour of
    its own bin, red for a centre below 0 and blue otherwise, the dashed
    line reaches the largest count, and the number in the title is the
    sum of the counts of the blue bins over the sum of all counts. *)
Theorem p_substitute_counts_bins_above_zero :
  forall (cnts bins : Numpy.ndarray) (patches : list nat),
    StronglySorted Rlt bins ->
    List.length bins = S (List.length cnts) ->
    cnts <> [] ->
    exists top,
      p_substitute cnts bins patches
      = inr (Subplot (combine (map colour_of (bincents bins)) patches) top
               (Numpy.sum (counts_above (bincents bins) cnts) / Numpy.sum cnts))
      /\ In top cnts
      /\ Forall (fun c => c <= top) cnts.
Proof.
  intros cnts bins patches Hs Hl Hne.
  destruct (py_max_spec cnts Hne) as (top & Et & It & Lt).
  exists top. split; [| now split].
  unfold p_substitute. cbv zeta.
  rewrite colour_bins_all.
  - now rewrite Et, py_sum_sum.
  - now apply increasing_NoDup, bincents_increasing.
  - rewrite bincents_length, Hl. simpl. lia.
Qed.

Lemma p_substitute_counts_bins_above_zero_witness :
  StronglySorted Rlt [-3; -1; 1; 3]
  /\ List.length [-3; -1; 1; 3] = S (List.length [5; 7; 8])
  /\ exists top,
       p_substitute [5; 7; 8] [-3; -1; 1; 3] [0; 1; 2]%nat
       = inr (Subplot (combine (map colour_of (bincents [-3; -1; 1; 3])) [0; 1; 2]%nat) top
                (Numpy.sum (counts_above (bincents [-3; -1; 1; 3]) [5; 7; 8])
                 / Numpy.sum [5; 7; 8])).
Proof.
  assert (S : StronglySorted Rlt [-3; -1; 1; 3]).
  { repeat (constructor; [| repeat (constructor; try lra)]). constructor. }
  split; [exact S | split; [reflexivity |]].
  destruct (p_substitute_counts_bins_above_zero [5; 7; 8] [-3; -1; 1; 3] [0; 1; 2]%nat S
              eq_refl) as (top & E & _); [discriminate |].
  exists top. exact E.
Defined.

Lemma combine_split_back :
  forall (A B : Type) (a : list A) (b : list B),
    List.length a = List.length b ->
    map fst (combine a b) = a /\ map snd (combine a b) = b.
Proof.
  intros A B a. induction a as [| x a IH]; intros [| y b] L; try discriminate L.
  - now split.
  - injection L as L. destruct (IH b L) as (E1 & E2). simpl. now rewrite E1, E2.
Qed.

Lemma bincents_below :
  forall (hi : R) (bins : Numpy.ndarray),
    Forall (fun e => e <= hi) bins ->
    StronglySorted Rlt bins ->
    Forall (fun c => c < hi) (bincents bins).
Proof.
  intros hi bins. induction bins as [| x [| y rest] IH]; intros Hhi Hs.
  1-2: constructor.
  rewrite bincents_cons. inversion Hhi as [| ? ? Hx Hhi']; subst.
  inversion Hhi'; subst.
  inversion Hs as [| ? ? Hs' Hall]; subst. inversion Hall; subst.
  constructor; [lra | now apply IH].
Qed.

(** X13: for the output of a histogram with counts that are not negative and
    not all 0, the number in the title lies between 0 and 1: it is a
    fraction of the counts, although the title prints it before a percent
    sign. *)
Theorem title_value_is_a_fraction :
  forall (cnts bins : Numpy.ndarray) (patches : list nat),
    StronglySorted Rlt bins ->
    List.length bins = S (List.length cnts) ->
    Forall (fun c => 0 <= c) cnts ->
    0 < Numpy.sum cnts ->
    exists sp,
      p_substitute cnts bins patches = inr sp
      /\ 0 <= title_value sp <= 1.
Proof.
  intros cnts bins patches Hs Hl Hc Hpos.
  assert (Hne : cnts <> []).
  { intros ->. unfold Numpy.sum in Hpos. simpl in Hpos. lra. }
  destruct (py_max_spec cnts Hne) as (top & Et & _).
  unfold p_substitute. cbv zeta. rewrite colour_bins_all.
  - rewrite Et, py_sum_sum. eexists. split; [reflexivity |].
    cbn [title_value].
    pose proof (counts_above_bounds (bincents bins) cnts Hc) as (B1 & B2).
    split.
    + apply Rle_mult_inv_pos; assumption.
    + apply (Rmult_le_reg_r (Numpy.sum cnts)); [exact Hpos |].
      unfold Rdiv. rewrite Rmult_assoc, Rinv_l; lra.
  - now apply increasing_NoDup, bincents_increasing.
  - rewrite bincents_length, Hl. simpl. lia.
Qed.

Lemma title_value_is_a_fraction_witness :
  StronglySorted Rlt [-3; -1; 1; 3]
  /\ Forall (fun c => 0 <= c) [5; 7; 8]
  /\ 0 < Numpy.sum [5; 7; 8]
  /\ exists sp,
       p_substitute [5; 7; 8] [-3; -1; 1; 3] [0; 1; 2]%nat = inr sp
       /\ 0 <= title_value sp <= 1.
Proof.
  assert (S : StronglySorted Rlt [-3; -1; 1; 3]).
  { repeat (constructor; [| repeat (constructor; try lra)]). constructor. }
  assert (C : Forall (fun c => 0 <= c) [5; 7; 8]) by (repeat (constructor; try lra)).
  assert (P : 0 < Numpy.sum [5; 7; 8]) by (unfold Numpy.sum; simpl; lra).
  split; [exact S | split; [exact C | split; [exact P |]]].
  exact (title_value_is_a_fraction [5; 7; 8] [-3; -1; 1; 3] [0; 1; 2]%nat S eq_refl C P).
Defined.

(** X14: for the output of a histogram with one patch per bin, every patch is
    coloured, and along the bins the colours are a run of reds followed
    by a run of blues: once a bin is blue no later bin is red. *)
Theorem patches_are_red_then_blue :
  forall (cnts bins : Numpy.ndarray) (patches : list nat),
    StronglySorted Rlt bins ->
    List.length bins = S (List.length cnts) ->
    cnts <> [] ->
    List.length patches = List.length cnts ->
    exists sp k,
      p_substitute cnts bins patches = inr sp
      /\ (k <= List.length cnts)%nat
      /\ map fst (facecolors sp)
         = repeat "red" k ++ repeat "blue" (List.length cnts - k)
      /\ map snd (facecolors sp) = patches.
Proof.
  intros cnts bins patches Hs Hl Hne Hp.
  assert (Hc : List.length (bincents bins) = List.length cnts).
  { rewrite bincents_length, Hl. reflexivity. }
  destruct (py_max_spec cnts Hne) as (top & Et & _).
  destruct (colours_red_then_blue (bincents bins) (bincents_increasing bins Hs))
    as (k & Hk & Ek).
  unfold p_substitute. cbv zeta. rewrite colour_bins_all.
  - rewrite Et. eexists. exists k. split; [reflexivity |].
    cbn [facecolors].
    destruct (combine_split_back _ _ (map colour_of (bincents bins)) patches)
      as (E1 & E2); [rewrite length_map; congruence |].
    rewrite E1, E2, Ek, Hc. split; [lia | now split].
  - now apply increasing_NoDup, bincents_increasing.
  - lia.
Qed.

Lemma patches_are_red_then_blue_witness :
  StronglySorted Rlt [-3; -1; 1; 3]
  /\ List.length [0; 1; 2]%nat = List.length [5; 7; 8]
  /\ exists sp k,
       p_substitute [5; 7; 8] [-3; -1; 1; 3] [0; 1; 2]%nat = inr sp
       /\ map fst (facecolors sp) = repeat "red" k ++ repeat "blue" (3 - k)
       /\ map snd (facecolors sp) = [0; 1; 2]%nat.
Proof.
  assert (S : StronglySorted Rlt [-3; -1; 1; 3]).
  { repeat (constructor; [| repeat (constructor; try lra)]). constructor. }
  split; [exact S | split; [reflexivity |]].
  destruct (patches_are_red_then_blue [5; 7; 8] [-3; -1; 1; 3] [0; 1; 2]%nat S eq_refl)
    as (sp & k & E & _ & E1 & E2); [discriminate | reflexivity |].
  exists sp, k. split; [exact E | split; [exact E1 | exact E2]].
Defined.

(** X15: when the benchmark 0 lies outside the histogram the count is all or
    nothing: with no bin edge below 0 every bin is blue and the number in
    the title is 1, with no bin edge above 0 every bin is red and the
    number is 0. *)
Theorem benchmark_outside_the_histogram :
  forall (cnts bins : Numpy.ndarray) (patches : list nat),
    StronglySorted Rlt bins ->
    List.length bins = S (List.length cnts) ->
    Numpy.sum cnts <> 0 ->
    (Forall (fun e => 0 <= e) bins ->
       exists sp, p_substitute cnts bins patches = inr sp
                  /\ title_value sp = 1
                  /\ Forall (fun cp => fst cp = "blue") (facecolors sp))
    /\ (Forall (fun e => e <= 0) bins ->
          exists sp, p_substitute cnts bins patches = inr sp
                     /\ title_value sp = 0
                     /\ Forall (fun cp => fst cp = "red") (facecolors sp)).
Proof.
  intros cnts bins patches Hs Hl Hsum.
  assert (Hne : cnts <> []).
  { intros ->. apply Hsum. reflexivity. }
  assert (Hc : List.length (bincents bins) = List.length cnts).
  { rewrite bincents_length, Hl. reflexivity. }
  destruct (py_max_spec cnts Hne) as (top & Et & _).
  assert (Run : p_substitute cnts bins patches
                = inr (Subplot (combine (map colour_of (bincents bins)) patches) top
                         (Numpy.sum (counts_above (bincents bins) cnts) / Numpy.sum cnts))).
  { unfold p_substitute. cbv zeta. rewrite colour_bins_all.
    - now rewrite Et, py_sum_sum.
    - now apply increasing_NoDup, bincents_increasing.
    - lia. }
  assert (Col : forall (c : string) (n : nat),
             Forall (fun cp : string * nat => fst cp = c) (combine (repeat c n) patches)).
  { intros c n. rewrite Forall_forall. intros [c' q] Hin.
    apply in_combine_l in Hin. apply repeat_spec in Hin. exact Hin. }
  split; intros He.
  - assert (A : Forall (fun b => 0 <= b) (bincents bins)).
    { eapply Forall_impl; [| exact (bincents_above 0 bins He Hs)].
      intros b Hb. simpl in Hb. lra. }
    destruct (counts_above_all (bincents bins) cnts A Hc) as (E1 & E2).
    eexists. split; [exact Run |]. cbn [title_value facecolors].
    rewrite E1, E2. split; [now field | apply Col].
  - destruct (counts_above_none (bincents bins) cnts (bincents_below 0 bins He Hs) Hc)
      as (E1 & E2).
    eexists. split; [exact Run |]. cbn [title_value facecolors].
    rewrite E1, E2. split; [| apply Col].
    unfold Numpy.sum at 1. simpl. unfold Rdiv. ring.
Qed.

Lemma benchmark_outside_the_histogram_witness :
  StronglySorted Rlt [1; 2; 3]
  /\ Numpy.sum [4; 6] <> 0
  /\ Forall (fun e => 0 <= e) [1; 2; 3]
  /\ exists sp, p_substitute [4; 6] [1; 2; 3] [0; 1]%nat = inr sp /\ title_value sp = 1.
Proof.
  assert (S : StronglySorted Rlt [1; 2; 3]).
  { repeat (constructor; [| repeat (constructor; try lra)]). constructor. }
  assert (P : Numpy.sum [4; 6] <> 0) by (unfold Numpy.sum; simpl; lra).
  assert (E : Forall (fun e => 0 <= e) [1; 2; 3]) by (repeat (constructor; try lra)).
  split; [exact S | split; [exact P | split; [exact E |]]].
  destruct (proj1 (benchmark_outside_the_histogram [4; 6] [1; 2; 3] [0; 1]%nat S eq_refl P) E)
    as (sp & H1 & H2 & _).
  exists sp. split; [exact H1 | exact H2].
Defined.

(** X16: for every input a pass ends in one of three ways: it leaves the
    subplot, with one colour per bin centre; it raises the [IndexError]
    of a bin for which there is no count; or, with no counts at all, it
    raises the [ValueError] of [max].  The lookup of a centre in the list
    of centres never fails. *)
Theorem p_substitute_outcomes :
  forall (cnts bins : Numpy.ndarray) (patches : list nat),
    (exists top s,
        p_substitute cnts bins patches
        = inr (Subplot (combine (map colour_of (bincents bins)) patches) top s)
        /\ In top cnts)
    \/ (exists i,
           p_substitute cnts bins patches = inl (IndexError i (List.length cnts))
           /\ (List.length cnts <= i < pred (List.length bins))%nat)
    \/ (cnts = []
        /\ p_substitute cnts bins patches
           = inl (Builtin (ValueError "max() arg is an empty sequence"))).
Proof.
  intros cnts bins patches. unfold p_substitute. cbv zeta.
  destruct (colour_bins_outcomes cnts (bincents bins) (bincents bins) [] 0
              (incl_refl _)) as [(s & E) | (i & E & Hi)]; rewrite E.
  - destruct cnts as [| c cnts].
    + right; right. now split.
    + left. destruct (py_max_spec (c :: cnts)) as (top & Et & It & _); [discriminate |].
      rewrite Et. exists top. eexists. split; [reflexivity | exact It].
  - right; left. exists i. split; [reflexivity |]. now rewrite <- bincents_length.
Qed.

(** * The cell of the exponential prior *)

Lemma exponential_density_bounds :
  forall i : R, 0 <= i -> 0 < exp (- (i / 5)) / 5 <= 0.2.
Proof.
  intros i Hi. pose proof (exp_pos (- (i / 5))) as P.
  assert (L : exp (- (i / 5)) <= 1).
  { destruct Hi as [Hi | <-].
    - rewrite <- exp_0. left. apply exp_increasing. lra.
    - replace (- (0 / 5)) with 0 by lra. rewrite exp_0. lra. }
  lra.
Qed.

(** X17: over abscissae that are not negative every value of the curve lies
    above 0 and at most at 0.2, below the upper limit 0.25 that the cell
    sets for the y axis, and over increasing abscissae the curve falls. *)
Theorem exponential_curve_stays_in_view :
  forall x : Numpy.ndarray,
    Forall (fun i => 0 <= i) x ->
    StronglySorted Rlt x ->
    List.length (exponential_curve x) = List.length x
    /\ Forall (fun y => 0 < y <= 0.2) (exponential_curve x)
    /\ Forall (fun y => y < 0.25) (exponential_curve x)
    /\ StronglySorted Rgt (exponential_curve x).
Proof.
  intros x Hx Hs. unfold exponential_curve.
  assert (B : Forall (fun y => 0 < y <= 0.2) (map (fun i => exp (- (i / 5)) / 5) x)).
  { rewrite Forall_map. eapply Forall_impl; [| exact Hx].
    intros i Hi. now apply exponential_density_bounds. }
  split; [apply length_map | split; [exact B | split]].
  - eapply Forall_impl; [| exact B]. intros y Hy. simpl in Hy. lra.
  - clear Hx B. induction Hs as [| a x Hs IH Hall]; simpl; constructor; [exact IH |].
    rewrite Forall_map. eapply Forall_impl; [| exact Hall].
    intros b Hb. simpl in Hb. unfold Rgt.
    assert (E : exp (- (b / 5)) < exp (- (a / 5))) by (apply exp_increasing; lra).
    lra.
Qed.

Lemma exponential_curve_stays_in_view_witness :
  Forall (fun i => 0 <= i) [0; 15; 30]
  /\ StronglySorted Rlt [0; 15; 30]
  /\ Forall (fun y => 0 < y <= 0.2) (exponential_curve [0; 15; 30])
  /\ StronglySorted Rgt (exponential_curve [0; 15; 30]).
Proof.
  assert (P : Forall (fun i => 0 <= i) [0; 15; 30]) by (repeat (constructor; try lra)).
  assert (S : StronglySorted Rlt [0; 15; 30]).
  { repeat (constructor; [| repeat (constructor; try lra)]). constructor. }
  split; [exact P | split; [exact S |]].
  destruct (exponential_curve_stays_in_view [0; 15; 30] P S) as (_ & H1 & _ & H2).
  exact (conj H1 H2).
Defined.
